(** * nautier-tradetron: the signal -> risk -> order -> fill pipeline

    A shallow embedding of the Python sources

      - [app/risk/__init__.py]       (RiskEngine)
      - [app/engine/rules.py]        (RuleCondition, Rule, RuleEngine)
      - [app/execution/__init__.py]  (PaperExecutionHandler, LiveFyersExecutionHandler)
      - [app/broker/__init__.py]     (FyersClient.place_order / get_order_status)
      - [app/engine/core.py]         (TradingEngine and its handlers)
      - [app/engine/__init__.py]     (EventQueue)
      - [app/api/__init__.py]        (activate_kill_switch, the strategy endpoints)

    Conventions.

      - A Python [float] is idealised as an exact rational ([Q]); the
        comparisons [<], [<=], [==] are the boolean tests on [Q].  NaN and
        the infinities have no counterpart.
      - A Python [int] is a [Z].
      - A [dict] is a [gmap]; [d.get(k)] is [d !! k], [k in d] is
        [is_Some (d !! k)], [d[k] = v] is [<[k:=v]> d].  Where the code
        iterates over a dict ([RuleEngine.rules], a decoded JSON object) it
        is the list of its items in insertion order ([Py.dict]).
      - A raised exception is the [Raise] branch of [result]; a function
        that cannot raise is a plain function.
      - [random] draws, generated identifiers and the remote broker are
        explicit arguments. *)

From Stdlib Require Import QArith Qround ZArith String Ascii List Bool Lia Lqa.
From stdpp Require Import gmap strings list fin_maps.

Local Open Scope string_scope.
Local Open Scope Z_scope.

(* ===================================================================== *)
(** * Python prelude                                                      *)
(* ===================================================================== *)

Module Py.

(** The exception classes that the modelled code can raise. *)
Inductive exn : Set :=
| KeyError
| TypeError
| AttributeError
| ValueError.

(** Outcome of a call that may raise. *)
Inductive result (A : Type) : Type :=
| Ok (a : A)
| Raise (e : exn).
Arguments Ok {A} a.
Arguments Raise {A} e.

Definition bind {A B : Type} (m : result A) (k : A -> result B) : result B :=
  match m with
  | Ok a => k a
  | Raise e => Raise e
  end.

(** [try: m  except Exception: handler] *)
Definition catch {A : Type} (m : result A) (handler : A) : A :=
  match m with
  | Ok a => a
  | Raise _ => handler
  end.

(** [d[k]] on a dict: [KeyError] when the key is absent. *)
Definition getitem {K : Type} `{Countable K} {V : Type} (d : gmap K V) (k : K) : result V :=
  match d !! k with
  | Some v => Ok v
  | None => Raise KeyError
  end.

(** [[f(x) for x in xs]]: left to right, the first exception escapes. *)
Fixpoint comprehension {A B : Type} (f : A -> result B) (xs : list A) : result (list B) :=
  match xs with
  | [] => Ok []
  | x :: rest =>
      bind (f x) (fun y =>
      bind (comprehension f rest) (fun ys => Ok (y :: ys)))
  end.

(** [all(bs)] and [any(bs)] on a list of booleans. *)
Definition all (bs : list bool) : bool := forallb (fun b => b) bs.
Definition any (bs : list bool) : bool := existsb (fun b => b) bs.

(** [str.upper()] on the ASCII letters; every other byte is kept. *)
Definition upper_ascii (c : ascii) : ascii :=
  let n := nat_of_ascii c in
  if (Nat.leb 97 n && Nat.leb n 122)%bool then ascii_of_nat (n - 32) else c.

Fixpoint upper (s : string) : string :=
  match s with
  | EmptyString => EmptyString
  | String c rest => String (upper_ascii c) (upper rest)
  end.

(** [c in s] for a one-character [c]. *)
Fixpoint contains (c : ascii) (s : string) : bool :=
  match s with
  | EmptyString => false
  | String c' rest => if Ascii.eqb c c' then true else contains c rest
  end.

(** [s.replace(c, t)] for a one-character [c]: every occurrence. *)
Fixpoint replace (c : ascii) (t : string) (s : string) : string :=
  match s with
  | EmptyString => EmptyString
  | String c' rest =>
      if Ascii.eqb c c' then t ++ replace c t rest
      else String c' (replace c t rest)
  end.

(** An insertion-ordered [dict]: the items in insertion order, keys
    pairwise distinct.  [dict_set] is [d[k] = v]: an existing key keeps
    its place, a new key goes last. *)
Definition dict (K V : Type) : Type := list (K * V).

Fixpoint dict_get {K V : Type} `{EqDecision K} (d : dict K V) (k : K) : option V :=
  match d with
  | [] => None
  | (k', v) :: rest => if decide (k = k') then Some v else dict_get rest k
  end.

Fixpoint dict_set {K V : Type} `{EqDecision K} (k : K) (v : V) (d : dict K V) : dict K V :=
  match d with
  | [] => [(k, v)]
  | (k', v') :: rest =>
      if decide (k = k') then (k, v) :: rest else (k', v') :: dict_set k v rest
  end.

Definition keys {K V : Type} (d : dict K V) : list K := map fst d.

(** The float comparisons. *)
Definition eqb (x y : Q) : bool := Qeq_bool x y.
Definition leb (x y : Q) : bool := Qle_bool x y.
Definition ltb (x y : Q) : bool := negb (Qle_bool y x).

(** [int(x)] on a float: truncation toward zero. *)
Definition int_of_float (x : Q) : Z :=
  if Qle_bool 0 x then Qfloor x else Qceiling x.

End Py.

Notation "x <- m ;; k" := (Py.bind m (fun x => k))
  (at level 100, m at next level, right associativity, only parsing).

(* ===================================================================== *)
(** * Events (app.events)                                                 *)
(* ===================================================================== *)

Module Events.

(** Modelled from the spec: the module [app/events] is not part of the
    sources at hand; the records below carry the fields that the spec's
    data model lists for each event and that the constructor calls in
    [risk], [execution] and [engine/core] pass. *)
Record SignalEvent : Type := mkSignalEvent {
  sig_user_id : Z;
  sig_strategy_id : Z;
  sig_symbol : string;
  sig_signal : string;
  sig_strength : Q
}.

(** The three reasons [validate_signal] gives, kept structured: two of
    them are f-strings around a number.  [reason_text] is the literal part
    of the message. *)
Inductive BlockReason : Type :=
| NotRegistered
| DailyLossLimit (loss : Q)
| MaxTrades (count : Z).

Definition reason_text (r : BlockReason) : string :=
  match r with
  | NotRegistered => "Strategy not registered"
  | DailyLossLimit _ => "Daily loss limit reached: "
  | MaxTrades _ => "Max trades per day reached: "
  end.

(** Modelled from the spec: [app/events] is missing. *)
Record RiskBlockEvent : Type := mkRiskBlockEvent {
  rb_user_id : Z;
  rb_strategy_id : Z;
  rb_reason : BlockReason;
  rb_signal : option SignalEvent
}.

(** Modelled from the spec: [app/events] is missing.  [client_order_id]
    and [broker_order_id] are [None] until set. *)
Record OrderEvent : Type := mkOrderEvent {
  ord_user_id : Z;
  ord_strategy_id : Z;
  ord_symbol : string;
  ord_order_type : string;
  ord_side : string;
  ord_quantity : Q;
  ord_price : Q;
  ord_client_order_id : option string;
  ord_broker_order_id : option string;
  ord_status : string
}.

(** Modelled from the spec: [app/events] is missing. *)
Record FillEvent : Type := mkFillEvent {
  fill_user_id : Z;
  fill_strategy_id : Z;
  fill_symbol : string;
  fill_order_id : option string;
  fill_quantity : Q;
  fill_price : Q;
  fill_commission : Q;
  fill_is_partial : bool
}.

End Events.

(* ===================================================================== *)
(** * Risk engine (app/risk/__init__.py)                                  *)
(* ===================================================================== *)

Module Risk.
Import Events.

Record RiskConfig : Type := mkRiskConfig {
  max_daily_loss : Q;
  max_trades_per_day : Z;
  max_position_size : Q;
  max_leverage : Q;
  kill_switch_enabled : bool
}.

(** The dataclass defaults. *)
Definition RiskConfig_default : RiskConfig :=
  mkRiskConfig 5000 50 100000 1 true.

Record RiskEngine : Type := mkRiskEngine {
  configs : gmap Z RiskConfig;
  daily_loss : gmap Z Q;
  trade_count : gmap Z Z
}.

(** [RiskEngine.__init__] *)
Definition init : RiskEngine := mkRiskEngine ∅ ∅ ∅.

(** [register_strategy] *)
Definition register_strategy (strategy_id : Z) (config : RiskConfig)
    (self : RiskEngine) : RiskEngine :=
  mkRiskEngine (<[strategy_id := config]> (configs self))
               (<[strategy_id := 0%Q]> (daily_loss self))
               (<[strategy_id := 0]> (trade_count self)).

(** [validate_signal]: [Ok None] is "allowed", [Ok (Some b)] is the block
    record.  The subscripts [self.daily_loss[strategy_id]] and
    [self.trade_count[strategy_id]] raise [KeyError] on an absent key. *)
Definition validate_signal (self : RiskEngine) (signal : SignalEvent)
    : Py.result (option RiskBlockEvent) :=
  let strategy_id := sig_strategy_id signal in
  match configs self !! strategy_id with
  | None =>
      Py.Ok (Some (mkRiskBlockEvent (sig_user_id signal) strategy_id
                     NotRegistered None))
  | Some config =>
      loss <- Py.getitem (daily_loss self) strategy_id ;;
      if Py.leb (max_daily_loss config) loss then
        Py.Ok (Some (mkRiskBlockEvent (sig_user_id signal) strategy_id
                       (DailyLossLimit loss) (Some signal)))
      else
        count <- Py.getitem (trade_count self) strategy_id ;;
        if max_trades_per_day config <=? count then
          Py.Ok (Some (mkRiskBlockEvent (sig_user_id signal) strategy_id
                         (MaxTrades count) (Some signal)))
        else Py.Ok None
  end.

(** [record_loss] *)
Definition record_loss (strategy_id : Z) (loss : Q) (self : RiskEngine)
    : RiskEngine :=
  match daily_loss self !! strategy_id with
  | Some cur =>
      mkRiskEngine (configs self)
                   (<[strategy_id := (cur + loss)%Q]> (daily_loss self))
                   (trade_count self)
  | None => self
  end.

(** [record_trade] *)
Definition record_trade (strategy_id : Z) (self : RiskEngine) : RiskEngine :=
  match trade_count self !! strategy_id with
  | Some n =>
      mkRiskEngine (configs self) (daily_loss self)
                   (<[strategy_id := n + 1]> (trade_count self))
  | None => self
  end.

(** [reset_daily] *)
Definition reset_daily (strategy_id : Z) (self : RiskEngine) : RiskEngine :=
  match daily_loss self !! strategy_id with
  | Some _ =>
      mkRiskEngine (configs self)
                   (<[strategy_id := 0%Q]> (daily_loss self))
                   (<[strategy_id := 0]> (trade_count self))
  | None => self
  end.

(** The states the engine can be in: whatever a sequence of method calls
    produces from a fresh instance. *)
Inductive reachable : RiskEngine -> Prop :=
| reach_init : reachable init
| reach_register sid cfg st :
    reachable st -> reachable (register_strategy sid cfg st)
| reach_record_loss sid loss st :
    reachable st -> reachable (record_loss sid loss st)
| reach_record_trade sid st :
    reachable st -> reachable (record_trade sid st)
| reach_reset_daily sid st :
    reachable st -> reachable (reset_daily sid st).

(** The three dicts are keyed by the same strategy ids. *)
Definition same_keys (st : RiskEngine) : Prop :=
  forall sid : Z,
    (is_Some (configs st !! sid) <-> is_Some (daily_loss st !! sid)) /\
    (is_Some (configs st !! sid) <-> is_Some (trade_count st !! sid)).

(** The verdict of the gate, read off a returned value. *)
Definition Allowed (r : Py.result (option RiskBlockEvent)) : Prop :=
  r = Py.Ok None.

Definition Blocked (r : Py.result (option RiskBlockEvent)) : Prop :=
  exists b, r = Py.Ok (Some b).

Definition BlockedWith (reason : BlockReason)
    (r : Py.result (option RiskBlockEvent)) : Prop :=
  exists b, r = Py.Ok (Some b) /\ rb_reason b = reason.

End Risk.

(* ===================================================================== *)
(** * Rule engine (app/engine/rules.py)                                   *)
(* ===================================================================== *)

Module Rules.

(** A decoded JSON document, as [json.loads] returns it: [None], [bool],
    number, [str], [list], [dict]. *)
#[warnings="-register-all"]
Inductive json : Type :=
| JNull
| JBool (b : bool)
| JNum (q : Q)
| JStr (s : string)
| JArr (items : list json)
| JObj (fields : Py.dict string json).

(** [x.upper()]: only a [str] has the method. *)
Definition str_upper (x : json) : Py.result string :=
  match x with
  | JStr s => Py.Ok (Py.upper s)
  | _ => Py.Raise Py.AttributeError
  end.

(** [d.get(k, default)]: only a [dict] has the method. *)
Definition json_get (d : json) (k : string) (default : json) : Py.result json :=
  match d with
  | JObj fields =>
      Py.Ok (match Py.dict_get fields k with Some v => v | None => default end)
  | _ => Py.Raise Py.AttributeError
  end.

(** [c[k]] with a [str] key [k]: a [dict] looks the key up, a [list] and
    a [str] want an integer index, nothing else is subscriptable. *)
Definition json_subscript (c : json) (k : string) : Py.result json :=
  match c with
  | JObj fields =>
      match Py.dict_get fields k with
      | Some v => Py.Ok v
      | None => Py.Raise Py.KeyError
      end
  | _ => Py.Raise Py.TypeError
  end.

Fixpoint chars (s : string) : list json :=
  match s with
  | EmptyString => []
  | String c rest => JStr (String c EmptyString) :: chars rest
  end.

(** [for c in x]: a [list] yields its items, a [str] its characters, a
    [dict] its keys; nothing else is iterable. *)
Definition json_iter (x : json) : Py.result (list json) :=
  match x with
  | JArr items => Py.Ok items
  | JStr s => Py.Ok (chars s)
  | JObj fields => Py.Ok (map JStr (Py.keys fields))
  | _ => Py.Raise Py.TypeError
  end.

Record RuleCondition : Type := mkRuleCondition {
  left : json;
  op : json;
  right : json
}.

Record Rule : Type := mkRule {
  name : json;
  conditions : list RuleCondition;
  action : string;
  operator : string
}.

Record RuleEngine : Type := mkRuleEngine {
  rules : Py.dict Z Rule
}.

(** [RuleEngine.__init__] *)
Definition RuleEngine_init : RuleEngine := mkRuleEngine [].

(** [EMA(9)] to [EMA_9]: the key an operand string names in a snapshot. *)
Definition indicator_key (expr : string) : string :=
  if (Py.contains "(" expr && Py.contains ")" expr)%bool
  then Py.replace ")" "" (Py.replace "(" "_" expr)
  else expr.

(** [RuleCondition._cross_above] and [_cross_below] *)
Definition _cross_above (l r : Q) (data : gmap string Q) : bool := Py.ltb r l.
Definition _cross_below (l r : Q) (data : gmap string Q) : bool := Py.ltb l r.

(** [Rule.__init__] *)
Definition Rule_init (name conditions action operator : json) : Py.result Rule :=
  items <- json_iter conditions ;;
  conds <- Py.comprehension
             (fun c =>
                l <- json_subscript c "left" ;;
                o <- json_subscript c "op" ;;
                r <- json_subscript c "right" ;;
                Py.Ok (mkRuleCondition l o r))
             items ;;
  act <- str_upper action ;;
  opr <- str_upper operator ;;
  Py.Ok (mkRule name conds act opr).

Section Builtins.

(** [float(s)] on a [str]: the parsed number, or [None] for the
    [ValueError] of a string that is not a number. *)
Variable float_of_str : string -> option Q.

(** [float(expr)] *)
Definition float (expr : json) : Py.result Q :=
  match expr with
  | JNum q => Py.Ok q
  | JBool b => Py.Ok (if b then 1%Q else 0%Q)
  | JStr s =>
      match float_of_str s with
      | Some q => Py.Ok q
      | None => Py.Raise Py.ValueError
      end
  | _ => Py.Raise Py.TypeError
  end.

(** [RuleCondition._resolve_value]: only [ValueError] is caught, and
    only a [str] makes [float] raise it. *)
Definition _resolve_value (expr : json) (data : gmap string Q)
    : Py.result (option Q) :=
  match float expr with
  | Py.Ok v => Py.Ok (Some v)
  | Py.Raise Py.ValueError =>
      match expr with
      | JStr s => Py.Ok (data !! indicator_key s)
      | _ => Py.Raise Py.TypeError
      end
  | Py.Raise e => Py.Raise e
  end.

(** [RuleCondition.evaluate] *)
Definition RuleCondition_evaluate (self : RuleCondition)
    (data : gmap string Q) : Py.result bool :=
  left_val <- _resolve_value (left self) data ;;
  right_val <- _resolve_value (right self) data ;;
  match left_val, right_val with
  | Some l, Some r =>
      op <- str_upper (op self) ;;
      if String.eqb op "==" then Py.Ok (Py.eqb l r)
      else if String.eqb op "!=" then Py.Ok (negb (Py.eqb l r))
      else if String.eqb op "<" then Py.Ok (Py.ltb l r)
      else if String.eqb op "<=" then Py.Ok (Py.leb l r)
      else if String.eqb op ">" then Py.Ok (Py.ltb r l)
      else if String.eqb op ">=" then Py.Ok (Py.leb r l)
      else if String.eqb op "CROSS_ABOVE" then Py.Ok (_cross_above l r data)
      else if String.eqb op "CROSS_BELOW" then Py.Ok (_cross_below l r data)
      else Py.Ok false
  | _, _ => Py.Ok false
  end.

(** A snapshot satisfies a condition when the evaluation returns [True]. *)
Definition satisfied (c : RuleCondition) (data : gmap string Q) : bool :=
  match RuleCondition_evaluate c data with
  | Py.Ok b => b
  | Py.Raise _ => false
  end.


(** [Rule.evaluate] *)
Definition Rule_evaluate (self : Rule) (data : gmap string Q) : Py.result bool :=
  match conditions self with
  | [] => Py.Ok false
  | _ =>
      results <- Py.comprehension
                   (fun c => RuleCondition_evaluate c data)
                   (conditions self) ;;
      if String.eqb (operator self) "AND" then Py.Ok (Py.all results)
      else if String.eqb (operator self) "OR" then Py.Ok (Py.any results)
      else Py.Ok false
  end.

(** [RuleEngine.parse_rule_json]: every exception becomes [None].  The
    argument is the outcome of [json.loads(rule_json)], the first statement
    of the [try] block: the decoded document, or the exception of a text
    that is not JSON. *)
Definition parse_rule_json (rule_json : Py.result json) : option Rule :=
  Py.catch
    (data <- rule_json ;;
     name <- json_get data "name" (JStr "Unnamed") ;;
     conditions <- json_get data "conditions" (JArr []) ;;
     action <- json_get data "action" (JStr "NONE") ;;
     operator <- json_get data "operator" (JStr "AND") ;;
     rule <- Rule_init name conditions action operator ;;
     Py.Ok (Some rule))
    None.

(** [RuleEngine.register_rule]: the new engine and the returned flag. *)
Definition register_rule (rule_id : Z) (rule_json : Py.result json)
    (self : RuleEngine) : RuleEngine * bool :=
  match parse_rule_json rule_json with
  | Some rule => (mkRuleEngine (Py.dict_set rule_id rule (rules self)), true)
  | None => (self, false)
  end.

(** [RuleEngine.evaluate] *)
Definition evaluate (self : RuleEngine) (rule_id : Z)
    (market_data : gmap string Q) : Py.result string :=
  match Py.dict_get (rules self) rule_id with
  | None => Py.Ok "NONE"
  | Some rule =>
      triggered <- Rule_evaluate rule market_data ;;
      if triggered then Py.Ok (action rule) else Py.Ok "NONE"
  end.

(** The loop of [RuleEngine.evaluate_all] over [self.rules.items()]. *)
Fixpoint evaluate_all_loop (items : list (Z * Rule))
    (market_data : gmap string Q) (results : Py.dict Z string)
    : Py.result (Py.dict Z string) :=
  match items with
  | [] => Py.Ok results
  | (rule_id, rule) :: rest =>
      triggered <- Rule_evaluate rule market_data ;;
      evaluate_all_loop rest market_data
        (Py.dict_set rule_id (if triggered then "BUY" else "NONE") results)
  end.

(** [RuleEngine.evaluate_all] *)
Definition evaluate_all (self : RuleEngine) (market_data : gmap string Q)
    : Py.result (Py.dict Z string) :=
  evaluate_all_loop (rules self) market_data [].

End Builtins.

(** The operands of the data model: a literal number or a string. *)
Definition is_operand (x : json) : Prop :=
  match x with
  | JNum _ | JStr _ => True
  | _ => False
  end.



End Rules.

(* ===================================================================== *)
(** * Broker adapter (app/broker/__init__.py)                             *)
(* ===================================================================== *)

Module Broker.

(** The JSON body of a placement request. *)
Record PlacePayload : Type := mkPlacePayload {
  p_symbol : string;
  p_qty : Z;
  p_type : Z;
  p_side : Z;
  p_productType : string;
  p_priceType : string;
  p_price : Q;
  p_clientId : option string
}.

(** The broker's answers, reduced to the keys the callers read with
    [.get]: an absent key is [None]. *)
Record PlaceResult : Type := mkPlaceResult {
  res_status : option string;
  res_id : option string
}.

Record StatusResult : Type := mkStatusResult {
  st_status : option string;
  st_filledqty : option Q;
  st_price : option Q
}.

Record FyersClient : Type := mkFyersClient {
  app_id : string;
  app_secret : string;
  access_token : option string
}.

(** Truth value of an [Optional[str]]: [None] and the empty string are
    false. *)
Definition truthy (s : option string) : bool :=
  match s with
  | None => false
  | Some EmptyString => false
  | Some _ => true
  end.

(** [{"status": "error", "message": ...}] *)
Definition error_result : PlaceResult := mkPlaceResult (Some "error") None.
Definition error_status : StatusResult := mkStatusResult (Some "error") None None.

(** The [payload] dict of [place_order]; [clientId] is set only for a
    truthy [client_order_id]. *)
Definition place_payload (symbol order_type side : string) (quantity : Z)
    (price : Q) (client_order_id : option string) : PlacePayload :=
  mkPlacePayload symbol quantity
    (if String.eqb order_type "MARKET" then 1 else 2)
    (if String.eqb side "BUY" then 1 else -1)
    "MIS"
    (if String.eqb order_type "MARKET" then "0" else "1")
    price
    (if truthy client_order_id then client_order_id else None).

Section Remote.

(** The remote end of the HTTP session: its state, and what a request does
    to it.  [Raise] stands for any exception of the transport
    ([raise_for_status] included). *)
Variable World : Type.
Variable post_place : PlacePayload -> World -> Py.result PlaceResult * World.
Variable get_order : option string -> World -> Py.result StatusResult * World.

(** [FyersClient.place_order] *)
Definition place_order (self : FyersClient) (symbol order_type side : string)
    (quantity : Z) (price : Q) (client_order_id : option string) (w : World)
    : PlaceResult * World :=
  if negb (truthy (access_token self)) then (error_result, w)
  else
    let payload :=
      place_payload symbol order_type side quantity price client_order_id in
    match post_place payload w with
    | (Py.Ok order_data, w') => (order_data, w')
    | (Py.Raise _, w') => (error_result, w')
    end.

(** [FyersClient.get_order_status] *)
Definition get_order_status (self : FyersClient) (order_id : option string)
    (w : World) : StatusResult * World :=
  if negb (truthy (access_token self)) then (error_status, w)
  else
    match get_order order_id w with
    | (Py.Ok st, w') => (st, w')
    | (Py.Raise _, w') => (error_status, w')
    end.

End Remote.

(** The remote end answered the placement with status success. *)
Definition acknowledged (answer : Py.result PlaceResult) : Prop :=
  exists r, answer = Py.Ok r /\ res_status r = Some "success".

(** A remote end paired with the journal of the placement requests it has
    received, oldest first. *)
Definition recording {World : Type}
    (post_place : PlacePayload -> World -> Py.result PlaceResult * World)
    (p : PlacePayload) (wl : World * list PlacePayload)
    : Py.result PlaceResult * (World * list PlacePayload) :=
  let '(r, w') := post_place p wl.1 in (r, (w', (wl.2 ++ [p])%list)).

Definition unrecorded {World : Type}
    (get_order : option string -> World -> Py.result StatusResult * World)
    (order_id : option string) (wl : World * list PlacePayload)
    : Py.result StatusResult * (World * list PlacePayload) :=
  let '(r, w') := get_order order_id wl.1 in (r, (w', wl.2)).

End Broker.

(* ===================================================================== *)
(** * Execution handlers (app/execution/__init__.py)                      *)
(* ===================================================================== *)

Module Execution.
Import Events.

Record PaperExecutionHandler : Type := mkPaperExecutionHandler {
  slippage_percent : Q;
  partial_fill_chance : Q
}.

(** [PaperExecutionHandler.__init__] *)
Definition PaperExecutionHandler_init : PaperExecutionHandler :=
  mkPaperExecutionHandler (5 # 100) (10 # 100).

(** What one call draws from [random]: [uniform(0.1, 0.5)] for the delay,
    [random()] for the partial-fill roll, [uniform(0.5, 0.9)] for the
    filled fraction (looked at only when the roll says partial). *)
Record PaperDraws : Type := mkPaperDraws {
  delay : Q;
  roll : Q;
  fraction : Q
}.

(** The ranges the draws come from. *)
Definition draws_in_range (d : PaperDraws) : Prop :=
  (1 # 10 <= delay d <= 5 # 10)%Q /\
  (0 <= roll d)%Q /\ (roll d < 1)%Q /\
  (5 # 10 <= fraction d <= 9 # 10)%Q.

(** [PaperExecutionHandler.execute_order] *)
Definition paper_execute_order (self : PaperExecutionHandler)
    (order : OrderEvent) (d : PaperDraws) : FillEvent :=
  let fill_price := ord_price order in
  let fill_price :=
    if String.eqb (ord_side order) "BUY"
    then (fill_price * (1 + slippage_percent self / 100))%Q
    else (fill_price * (1 - slippage_percent self / 100))%Q in
  let '(filled_qty, is_partial) :=
    if Py.ltb (roll d) (partial_fill_chance self)
    then ((ord_quantity order * fraction d)%Q, true)
    else (ord_quantity order, false) in
  let commission := ((filled_qty * fill_price) * (5 # 10000))%Q in
  mkFillEvent (ord_user_id order) (ord_strategy_id order) (ord_symbol order)
    (ord_client_order_id order) filled_qty fill_price commission is_partial.

Definition set_client_order_id (cid : option string) (o : OrderEvent) : OrderEvent :=
  mkOrderEvent (ord_user_id o) (ord_strategy_id o) (ord_symbol o)
    (ord_order_type o) (ord_side o) (ord_quantity o) (ord_price o)
    cid (ord_broker_order_id o) (ord_status o).

Definition set_broker_order_id (bid : option string) (o : OrderEvent) : OrderEvent :=
  mkOrderEvent (ord_user_id o) (ord_strategy_id o) (ord_symbol o)
    (ord_order_type o) (ord_side o) (ord_quantity o) (ord_price o)
    (ord_client_order_id o) bid (ord_status o).

(** The placement request [execute_order] builds for an order. *)
Definition order_payload (order : OrderEvent) : Broker.PlacePayload :=
  Broker.place_payload (ord_symbol order) (ord_order_type order) (ord_side order)
    (Py.int_of_float (ord_quantity order))
    (if String.eqb (ord_order_type order) "LIMIT" then ord_price order else 0%Q)
    (ord_client_order_id order).

Section Live.

Variable World : Type.
Variable post_place : Broker.PlacePayload -> World -> Py.result Broker.PlaceResult * World.
Variable get_order : option string -> World -> Py.result Broker.StatusResult * World.

(** [LiveFyersExecutionHandler]: its only attribute is the client. *)
Record LiveFyersExecutionHandler : Type := mkLiveFyersExecutionHandler {
  fyers : Broker.FyersClient
}.

(** [LiveFyersExecutionHandler.execute_order].  [fresh] is
    [uuid.uuid4().hex[:12]].  Returned: the fill or [None], the order
    object as the call leaves it, and the remote state. *)
Definition live_execute_order (self : LiveFyersExecutionHandler)
    (fresh : string) (order : OrderEvent) (w : World)
    : option FillEvent * OrderEvent * World :=
  let order :=
    if negb (Broker.truthy (ord_client_order_id order))
    then set_client_order_id (Some ("order_" ++ fresh)) order
    else order in
  let '(result, w) :=
    Broker.place_order World post_place (fyers self)
      (ord_symbol order) (ord_order_type order) (ord_side order)
      (Py.int_of_float (ord_quantity order))
      (if String.eqb (ord_order_type order) "LIMIT" then ord_price order else 0%Q)
      (ord_client_order_id order) w in
  if negb (bool_decide (Broker.res_status result = Some "success"))
  then (None, order, w)
  else
    let broker_order_id := Broker.res_id result in
    let order := set_broker_order_id broker_order_id order in
    let '(status, w) :=
      Broker.get_order_status World get_order (fyers self) broker_order_id w in
    let filled_qty := default 0%Q (Broker.st_filledqty status) in
    let fill_price := default (ord_price order) (Broker.st_price status) in
    let commission := ((filled_qty * fill_price) * (5 # 10000))%Q in
    (Some (mkFillEvent (ord_user_id order) (ord_strategy_id order)
             (ord_symbol order) broker_order_id filled_qty fill_price
             commission
             (bool_decide (Broker.st_status status = Some "PARTIAL"))),
     order, w).

(** Two submissions in a row; the second is handed the order object as
    the first left it. *)
Definition execute_twice (self : LiveFyersExecutionHandler)
    (fresh1 fresh2 : string) (order : OrderEvent) (w : World)
    : option FillEvent * option FillEvent * World :=
  let '(fill1, order1, w1) := live_execute_order self fresh1 order w in
  let '(fill2, order2, w2) := live_execute_order self fresh2 order1 w1 in
  (fill1, fill2, w2).

End Live.

End Execution.

(* ===================================================================== *)
(** * Orchestrator (app/engine/core.py)                                   *)
(* ===================================================================== *)

Module Core.
Import Events.

(** [TradingEngine]: the position ledger, the risk engine and the running
    flag (the bus, the rule engine and the execution handler play no part
    in fill handling). *)
Record TradingEngine : Type := mkTradingEngine {
  positions : gmap string Q;
  risk_engine : Risk.RiskEngine;
  running : bool
}.

(** [TradingEngine.__init__] *)
Definition init : TradingEngine := mkTradingEngine ∅ Risk.init false.

(** [self.positions.get(symbol, 0)] *)
Definition get_position (self : TradingEngine) (symbol : string) : Q :=
  default 0%Q (positions self !! symbol).

(** [TradingEngine._on_fill_event] *)
Definition _on_fill_event (event : FillEvent) (self : TradingEngine) : TradingEngine :=
  let current := default 0%Q (positions self !! fill_symbol event) in
  mkTradingEngine
    (<[fill_symbol event := (current + fill_quantity event)%Q]> (positions self))
    (Risk.record_trade (fill_strategy_id event) (risk_engine self))
    (running self).

End Core.

(* ===================================================================== *)
(** * Kill switch (app/api/__init__.py, app/models/__init__.py)           *)
(* ===================================================================== *)

Module Api.

(** [models.OrderStatus] *)
Inductive OrderStatus : Set :=
| CREATED | VALIDATED | SENT | ACK | PARTIAL | FILLED | REJECTED | CANCELED.

#[global] Instance OrderStatus_eq_dec : EqDecision OrderStatus.
Proof. solve_decision. Defined.

(** A row of the [orders] table, without its primary key. *)
Record Order : Type := mkOrder {
  user_id : Z;
  strategy_id : Z;
  symbol : string;
  side : string;
  quantity : Q;
  status : OrderStatus
}.

Definition set_status (s : OrderStatus) (o : Order) : Order :=
  mkOrder (user_id o) (strategy_id o) (symbol o) (side o) (quantity o) s.

(** The [orders] table behind the session: primary key [id] to row.  A
    queried object is a handle on its row: it is named by the key, and
    assigning to its attribute changes the row. *)
Abbreviation Table := (gmap Z Order).

(** The statuses listed in the query's [in_]. *)
Definition active_statuses : list OrderStatus :=
  [CREATED; VALIDATED; SENT; ACK; PARTIAL].

(** The filter of the query. *)
Definition is_active_for (uid : Z) (o : Order) : bool :=
  bool_decide (user_id o = uid) && bool_decide (status o ∈ active_statuses).

(** [db.query(Order).filter(...).all()]: the handles of the matching rows. *)
Definition query_active (uid : Z) (db : Table) : list Z :=
  (map_to_list (filter (fun kv => is_active_for uid kv.2 = true) db)).*1.

(** The loop over [active_orders]. *)
Fixpoint cancel_loop (active_orders : list Z) (db : Table) (cancelled : nat)
    : Table * nat :=
  match active_orders with
  | [] => (db, cancelled)
  | order :: rest =>
      cancel_loop rest (alter (set_status CANCELED) order db) (S cancelled)
  end.

(** [activate_kill_switch]: the table after the commit and the
    [orders_cancelled] of the response. *)
Definition activate_kill_switch (uid : Z) (db : Table) : Table * nat :=
  cancel_loop (query_active uid db) db 0%nat.

End Api.

(* ===================================================================== *)
(** * Concrete inputs                                                     *)
(* ===================================================================== *)

Module Fixtures.
Import Rules.

(** A [float(s)] for plain decimal numerals: an optional minus sign,
    digits, an optional point followed by digits.  Every other string is a
    [ValueError]. *)
Definition digit (c : ascii) : option Z :=
  let n := nat_of_ascii c in
  if (Nat.leb 48 n && Nat.leb n 57)%bool then Some (Z.of_nat (n - 48)) else None.

Fixpoint decimal_digits (s : string) (acc : Z) (scale : option positive)
    (seen : bool) : option Q :=
  match s with
  | EmptyString =>
      if seen then Some (acc # default 1%positive scale) else None
  | String c rest =>
      if Ascii.eqb c "." then
        match scale with
        | None => if seen then decimal_digits rest acc (Some 1%positive) false else None
        | Some _ => None
        end
      else
        match digit c with
        | Some d =>
            decimal_digits rest (acc * 10 + d)
              (option_map (fun p => (p * 10)%positive) scale) true
        | None => None
        end
  end.

Definition decimal_float (s : string) : option Q :=
  match s with
  | String c rest =>
      if Ascii.eqb c "-" then option_map Qopp (decimal_digits rest 0 None false)
      else decimal_digits s 0 None false
  | EmptyString => None
  end.

Definition condition_json (l : json) (o : string) (r : json) : json :=
  JObj [("left", l); ("op", JStr o); ("right", r)].

Definition rule_json (name : string) (conds : list json) (operator action : string) : json :=
  JObj [("name", JStr name); ("conditions", JArr conds);
        ("operator", JStr operator); ("action", JStr action)].

(** The rule of [test_rule_engine]. *)
Definition ema_crossover : json :=
  rule_json "EMA Crossover"
    [condition_json (JStr "EMA(9)") ">" (JStr "EMA(21)");
     condition_json (JStr "RSI(14)") "<" (JNum 70)]
    "AND" "BUY".

(** The rule of [test_rule_engine_or_operator]. *)
Definition ema_or_rsi : json :=
  rule_json "EMA or RSI"
    [condition_json (JStr "EMA(9)") ">" (JStr "EMA(21)");
     condition_json (JStr "RSI(14)") ">" (JNum 70)]
    "OR" "SELL".


(** The docstring example of [RuleCondition]. *)
Definition ema_cross : RuleCondition :=
  mkRuleCondition (JStr "EMA(9)") (JStr "CROSS_ABOVE") (JStr "EMA(21)").

Definition snapshot (ema9 ema21 rsi14 : Q) : gmap string Q :=
  <["EMA_9" := ema9]> (<["EMA_21" := ema21]> (<["RSI_14" := rsi14]> ∅)).

(** A registered strategy with the default limits. *)
Definition risk_one : Risk.RiskEngine :=
  Risk.register_strategy 1 Risk.RiskConfig_default Risk.init.

Definition signal_for (strategy : Z) : Events.SignalEvent :=
  Events.mkSignalEvent 1 strategy "NSE:SBIN-EQ" "BUY" (8 # 10).

Definition market_order (side : string) (qty price : Q) (cid : option string)
    : Events.OrderEvent :=
  Events.mkOrderEvent 1 1 "NSE:SBIN-EQ" "MARKET" side qty price cid None "CREATED".

(** A paper handler that never fills partially. *)
Definition paper_no_partial : Execution.PaperExecutionHandler :=
  Execution.mkPaperExecutionHandler (5 # 100) 0.

Definition draws : Execution.PaperDraws :=
  Execution.mkPaperDraws (3 # 10) (5 # 10) (7 # 10).

(** A remote end that acknowledges every placement and reports it filled;
    its state counts the placements. *)
Definition accept_place (p : Broker.PlacePayload) (n : nat)
    : Py.result Broker.PlaceResult * nat :=
  (Py.Ok (Broker.mkPlaceResult (Some "success") (Some "B1")), S n).

Definition report_filled (order_id : option string) (n : nat)
    : Py.result Broker.StatusResult * nat :=
  (Py.Ok (Broker.mkStatusResult (Some "FILLED") (Some 10%Q) (Some 100%Q)), n).

Definition live_handler : Execution.LiveFyersExecutionHandler :=
  Execution.mkLiveFyersExecutionHandler
    (Broker.mkFyersClient "app" "secret" (Some "token")).

(** An [orders] table: two users, active and terminal rows. *)
Definition orders : Api.Table :=
  <[1 := Api.mkOrder 7 1 "NSE:SBIN-EQ" "BUY" 10 Api.SENT]>
  (<[2 := Api.mkOrder 7 1 "NSE:INFY-EQ" "SELL" 5 Api.FILLED]>
  (<[3 := Api.mkOrder 8 2 "NSE:SBIN-EQ" "BUY" 1 Api.CREATED]>
  (<[4 := Api.mkOrder 7 1 "NSE:TCS-EQ" "BUY" 2 Api.PARTIAL]> ∅))).

End Fixtures.

(* ===================================================================== *)
(** * Event bus (app/engine/__init__.py)                                  *)
(* ===================================================================== *)

Module Bus.
Import Events.

(** Modelled from the spec: [app/events] is missing; the event types are
    the variants of the spec's Event union. *)
Inductive EventType : Set :=
| MARKET | SIGNAL | ORDER | FILL | RISK_BLOCK.

#[global] Instance EventType_eq_dec : EqDecision EventType.
Proof. solve_decision. Defined.

(** Modelled from the spec: [app/events] is missing; the fields are those
    [inject_market_data] passes. *)
Record MarketEvent : Type := mkMarketEvent {
  mkt_user_id : Z;
  mkt_strategy_id : Z;
  mkt_symbol : string;
  mkt_price : Q;
  mkt_volume : Z;
  mkt_bid : Q;
  mkt_ask : Q
}.

(** Modelled from the spec: [app/events] is missing; one variant per event
    class. *)
Inductive Event : Type :=
| EvMarket (e : MarketEvent)
| EvSignal (e : SignalEvent)
| EvOrder (e : OrderEvent)
| EvFill (e : FillEvent)
| EvRiskBlock (e : RiskBlockEvent).

(** [event.event_type] *)
Definition event_type (event : Event) : EventType :=
  match event with
  | EvMarket _ => MARKET
  | EvSignal _ => SIGNAL
  | EvOrder _ => ORDER
  | EvFill _ => FILL
  | EvRiskBlock _ => RISK_BLOCK
  end.

(** [deque.append] on a [deque(maxlen=n)]: the new item goes to the right
    end and, beyond [n] items, the left end is discarded. *)
Definition deque_append {A : Type} (maxlen : nat) (q : list A) (x : A) : list A :=
  drop (length (q ++ [x])%list - maxlen) (q ++ [x])%list.

Section Queue.

(** What the subscribed callbacks act on.  A callback returns normally or
    raises, and leaves that state as the call left it.  The callbacks of
    this model do not call back into the queue they are invoked from: [put]
    runs them while it holds the queue's lock. *)
Variable S : Type.

Definition Callback : Type := Event -> S -> Py.result unit * S.

Record EventQueue : Type := mkEventQueue {
  queue : list Event;
  maxlen : nat;
  subscribers : Py.dict EventType (list Callback)
}.

(** [EventQueue.__init__] *)
Definition init (max_size : nat) : EventQueue := mkEventQueue [] max_size [].

(** The loop of [put] over the callbacks of the event's type: an exception
    is logged and the loop goes on. *)
Fixpoint notify (callbacks : list Callback) (event : Event) (s : S) : S :=
  match callbacks with
  | [] => s
  | callback :: rest =>
      match callback event s with
      | (Py.Ok _, s') => notify rest event s'
      | (Py.Raise _, s') => notify rest event s'
      end
  end.

(** [EventQueue.put] *)
Definition put (event : Event) (self : EventQueue) (s : S) : EventQueue * S :=
  let self' :=
    mkEventQueue (deque_append (maxlen self) (queue self) event)
      (maxlen self) (subscribers self) in
  match Py.dict_get (subscribers self) (event_type event) with
  | Some callbacks => (self', notify callbacks event s)
  | None => (self', s)
  end.

(** [EventQueue.get] *)
Definition get (self : EventQueue) : option Event * EventQueue :=
  match queue self with
  | event :: rest =>
      (Some event, mkEventQueue rest (maxlen self) (subscribers self))
  | [] => (None, self)
  end.

(** [EventQueue.subscribe] *)
Definition subscribe (event_type : EventType) (callback : Callback)
    (self : EventQueue) : EventQueue :=
  let current :=
    match Py.dict_get (subscribers self) event_type with
    | Some callbacks => callbacks
    | None => []
    end in
  mkEventQueue (queue self) (maxlen self)
    (Py.dict_set event_type (current ++ [callback])%list (subscribers self)).

(** [EventQueue.size] *)
Definition size (self : EventQueue) : nat := length (queue self).

(** [EventQueue.clear] *)
Definition clear (self : EventQueue) : EventQueue :=
  mkEventQueue [] (maxlen self) (subscribers self).

(** [put] of the events of a list, one after the other. *)
Fixpoint put_all (events : list Event) (self : EventQueue) (s : S) : EventQueue * S :=
  match events with
  | [] => (self, s)
  | event :: rest =>
      let '(self', s') := put event self s in put_all rest self' s'
  end.

(** [get] called [n] times: the events it returned, oldest first, and the
    queue it left. *)
Fixpoint get_many (n : nat) (self : EventQueue) : list Event * EventQueue :=
  match n with
  | O => ([], self)
  | Datatypes.S n' =>
      match get self with
      | (Some event, self') =>
          let '(events, self'') := get_many n' self' in (event :: events, self'')
      | (None, self') => get_many n' self'
      end
  end.

(** The queues a sequence of calls produces from a new one. *)
Inductive reachable (max_size : nat) : EventQueue -> Prop :=
| reach_init : reachable max_size (init max_size)
| reach_put event self s :
    reachable max_size self -> reachable max_size (put event self s).1
| reach_get self :
    reachable max_size self -> reachable max_size (get self).2
| reach_subscribe event_type callback self :
    reachable max_size self ->
    reachable max_size (subscribe event_type callback self)
| reach_clear self :
    reachable max_size self -> reachable max_size (clear self).

End Queue.

End Bus.

(* ===================================================================== *)
(** * Orchestrator handlers (app/engine/core.py)                          *)
(* ===================================================================== *)

Module Orchestrator.
Import Events Bus.

(** The [market_data] dict of [_on_market_event]. *)
Definition market_data (event : MarketEvent) : gmap string Q :=
  <["price" := mkt_price event]>
  (<["volume" := inject_Z (mkt_volume event)]>
  (<["bid" := mkt_bid event]>
  (<["ask" := mkt_ask event]> ∅))).

(** The loop of [_on_market_event] over [results.items()]: the signals it
    hands to [event_queue.put], in that order. *)
Fixpoint signals_of (event : MarketEvent) (results : list (Z * string))
    : list SignalEvent :=
  match results with
  | [] => []
  | (rule_id, signal_action) :: rest =>
      if negb (String.eqb signal_action "NONE")
      then mkSignalEvent (mkt_user_id event) (mkt_strategy_id event)
             (mkt_symbol event) signal_action (8 # 10)
           :: signals_of event rest
      else signals_of event rest
  end.

(** [TradingEngine.inject_market_data]: the event it hands to
    [event_queue.put]. *)
Definition inject_market_data (symbol : string) (price : Q) (volume : Z)
    (user_id strategy_id : Z) : MarketEvent :=
  mkMarketEvent user_id strategy_id symbol price volume
    (price * (99 # 100))%Q (price * (101 # 100))%Q.

(** [TradingEngine._on_fill_event] as a subscriber of the bus.  It reads
    [symbol], [quantity], [price] and [strategy_id] of whatever it is
    handed: a fill and an order have them all, the other events lack
    [quantity]. *)
Definition on_fill : Callback Core.TradingEngine :=
  fun event self =>
    match event with
    | EvFill fill => (Py.Ok tt, Core._on_fill_event fill self)
    | EvOrder order =>
        (Py.Ok tt,
         Core._on_fill_event
           (mkFillEvent (ord_user_id order) (ord_strategy_id order)
              (ord_symbol order) None (ord_quantity order) (ord_price order)
              0 false)
           self)
    | _ => (Py.Raise Py.AttributeError, self)
    end.

Section Handlers.

Variable float_of_str : string -> option Q.

(** The defaults of the [OrderEvent] fields that [_on_signal_event] does
    not pass; [app/events] is missing. *)
Variable default_price : Q.
Variable default_client_order_id : option string.
Variable default_broker_order_id : option string.

(** [TradingEngine._on_market_event]: the signals it publishes. *)
Definition _on_market_event (rule_engine : Rules.RuleEngine)
    (event : MarketEvent) : Py.result (list SignalEvent) :=
  results <- Rules.evaluate_all float_of_str rule_engine (market_data event) ;;
  Py.Ok (signals_of event results).

(** [TradingEngine._on_signal_event]: the one event it publishes, the risk
    block or the order. *)
Definition _on_signal_event (risk_engine : Risk.RiskEngine)
    (event : SignalEvent) : Py.result Event :=
  risk_block <- Risk.validate_signal risk_engine event ;;
  match risk_block with
  | Some block => Py.Ok (EvRiskBlock block)
  | None =>
      Py.Ok (EvOrder
               (mkOrderEvent (sig_user_id event) (sig_strategy_id event)
                  (sig_symbol event) "MARKET" (sig_signal event) 10
                  default_price default_client_order_id
                  default_broker_order_id "CREATED"))
  end.

(** The market and signal handlers as subscribers: both publish on the
    queue they are called from, which the callbacks of [Bus] do not do, so
    they stay abstract here. *)
Variable on_market : Callback Core.TradingEngine.
Variable on_signal : Callback Core.TradingEngine.

(** [TradingEngine._subscribe_to_events] *)
Definition _subscribe_to_events (event_queue : EventQueue Core.TradingEngine)
    : EventQueue Core.TradingEngine :=
  subscribe Core.TradingEngine FILL on_fill
    (subscribe Core.TradingEngine SIGNAL on_signal
       (subscribe Core.TradingEngine MARKET on_market event_queue)).

End Handlers.

End Orchestrator.

(* ===================================================================== *)
(** * Strategy endpoints (app/api/__init__.py, app/models/__init__.py)    *)
(* ===================================================================== *)

Module Strategies.

(** An endpoint answers, or raises [HTTPException(status_code, detail)]. *)
Inductive http (A : Type) : Type :=
| Respond (a : A)
| HTTPException (status_code : Z) (detail : string).
Arguments Respond {A} a.
Arguments HTTPException {A} status_code detail.

(** A row of the [strategies] table, without its primary key. *)
Record Strategy : Type := mkStrategy {
  user_id : Z;
  name : string;
  description : string;
  rule_json : string;
  is_active : bool;
  paper_trading : bool;
  max_daily_loss : Q;
  max_trades_per_day : Z
}.

(** [StrategyCreate] *)
Record StrategyCreate : Type := mkStrategyCreate {
  new_name : string;
  new_description : string;
  new_rule_json : string;
  new_max_daily_loss : Q;
  new_max_trades_per_day : Z
}.

Definition set_is_active (b : bool) (s : Strategy) : Strategy :=
  mkStrategy (user_id s) (name s) (description s) (rule_json s) b
    (paper_trading s) (max_daily_loss s) (max_trades_per_day s).

(** The [strategies] table: primary key [id] to row. *)
Abbreviation Table := (gmap Z Strategy).

(** [db.query(Strategy).filter(Strategy.id == strategy_id,
    Strategy.user_id == user_id).first()] *)
Definition query_owned (strategy_id uid : Z) (db : Table) : option Strategy :=
  match db !! strategy_id with
  | Some s => if bool_decide (user_id s = uid) then Some s else None
  | None => None
  end.

(** [get_strategy] *)
Definition get_strategy (strategy_id uid : Z) (db : Table) : http Strategy :=
  match query_owned strategy_id uid db with
  | Some s => Respond s
  | None => HTTPException 404 "Strategy not found"
  end.

(** [toggle_strategy]: the table after the commit and the [is_active] of
    the response. *)
Definition toggle_strategy (strategy_id uid : Z) (db : Table) : http (Table * bool) :=
  match query_owned strategy_id uid db with
  | Some s =>
      let s' := set_is_active (negb (is_active s)) s in
      Respond (<[strategy_id := s']> db, is_active s')
  | None => HTTPException 404 "Strategy not found"
  end.

Section Create.

(** [json.loads] of the standard library. *)
Variable json_loads : string -> Py.result Rules.json.

(** [create_strategy].  [new_id] is the primary key the database gives
    the inserted row; [is_active] takes the column default. *)
Definition create_strategy (strategy_data : StrategyCreate) (uid : Z)
    (new_id : Z) (db : Table) : http (Table * Strategy) :=
  let engine := Rules.RuleEngine_init in
  if negb (Rules.register_rule 0 (json_loads (new_rule_json strategy_data)) engine).2
  then HTTPException 400 "Invalid rule JSON"
  else
    let strategy :=
      mkStrategy uid (new_name strategy_data) (new_description strategy_data)
        (new_rule_json strategy_data) false true
        (new_max_daily_loss strategy_data)
        (new_max_trades_per_day strategy_data) in
    Respond (<[new_id := strategy]> db, strategy).

End Create.

End Strategies.

(* ===================================================================== *)
(** * More concrete inputs                                                *)
(* ===================================================================== *)

Module Samples.

(** A strategy that stops after three trades or a loss of 100. *)
Definition tight : Risk.RiskConfig := Risk.mkRiskConfig 100 3 100000 1 true.

(** A handler that counts its calls in a [nat], and one that raises. *)
Definition counting : Bus.Callback nat := fun _ n => (Py.Ok tt, S n).
Definition failing : Bus.Callback nat := fun _ n => (Py.Raise Py.ValueError, n).

Definition tick (price : Q) : Bus.Event :=
  Bus.EvMarket (Orchestrator.inject_market_data "NSE:SBIN-EQ" price 1000 1 1).

(** A remote end that refuses every placement, and one whose status
    lookup fails. *)
Definition refuse_place (p : Broker.PlacePayload) (n : nat)
    : Py.result Broker.PlaceResult * nat :=
  (Py.Ok (Broker.mkPlaceResult (Some "error") None), S n).

Definition status_down (order_id : option string) (n : nat)
    : Py.result Broker.StatusResult * nat :=
  (Py.Raise Py.ValueError, n).

Definition strategies : Strategies.Table :=
  <[1 := Strategies.mkStrategy 7 "EMA" "crossover" "{}" false true 5000 50]>
  (<[2 := Strategies.mkStrategy 8 "RSI" "reversal" "{}" true true 5000 50]> ∅).

End Samples.

(* ===================================================================== *)
(** * Facts about the prelude                                             *)
(* ===================================================================== *)

Local Open Scope list_scope.

Lemma leb_le (x y : Q) : Py.leb x y = true <-> (x <= y)%Q.
Proof. apply Qle_bool_iff. Qed.

Lemma leb_nle (x y : Q) : Py.leb x y = false <-> ~ (x <= y)%Q.
Proof.
  unfold Py.leb. rewrite <- Qle_bool_iff.
  destruct (Qle_bool x y); split; congruence.
Qed.

Lemma ltb_lt (x y : Q) : Py.ltb x y = true <-> (x < y)%Q.
Proof.
  unfold Py.ltb. rewrite negb_true_iff.
  split; intros H.
  - apply Qnot_le_lt. intros Hle. apply Qle_bool_iff in Hle. congruence.
  - destruct (Qle_bool y x) eqn:E; [|reflexivity].
    apply Qle_bool_iff in E. exfalso. exact (Qlt_not_le _ _ H E).
Qed.

Lemma ltb_nlt (x y : Q) : Py.ltb x y = false <-> (y <= x)%Q.
Proof.
  unfold Py.ltb. rewrite negb_false_iff. apply Qle_bool_iff.
Qed.

Lemma dict_get_set_eq {K V : Type} `{EqDecision K} (d : Py.dict K V) (k : K) (v : V) :
  Py.dict_get (Py.dict_set k v d) k = Some v.
Proof.
  induction d as [|[k' v'] d IH]; simpl.
  - rewrite decide_True by reflexivity. reflexivity.
  - destruct (decide (k = k')) as [->|Hne]; simpl.
    + rewrite decide_True by reflexivity. reflexivity.
    + rewrite decide_False by assumption. exact IH.
Qed.

Lemma dict_get_set_ne {K V : Type} `{EqDecision K} (d : Py.dict K V) (k j : K) (v : V) :
  k <> j -> Py.dict_get (Py.dict_set k v d) j = Py.dict_get d j.
Proof.
  intros Hne. induction d as [|[k' v'] d IH]; simpl.
  - rewrite decide_False by congruence. reflexivity.
  - destruct (decide (k = k')) as [->|Hk]; simpl.
    + rewrite !decide_False by congruence. reflexivity.
    + destruct (decide (j = k')); [reflexivity | exact IH].
Qed.

Lemma comprehension_app {A B : Type} (f : A -> Py.result B) (xs ys : list A) :
  Py.comprehension f (xs ++ ys) =
  Py.bind (Py.comprehension f xs) (fun rs1 =>
  Py.bind (Py.comprehension f ys) (fun rs2 => Py.Ok (rs1 ++ rs2))).
Proof.
  induction xs as [|x xs IH]; simpl.
  - destruct (Py.comprehension f ys); reflexivity.
  - destruct (f x) as [y|e]; simpl; [|reflexivity].
    rewrite IH. destruct (Py.comprehension f xs) as [rs1|e]; simpl; [|reflexivity].
    destruct (Py.comprehension f ys); reflexivity.
Qed.




(* ===================================================================== *)
(** * The risk gate                                                       *)
(* ===================================================================== *)

Section RiskFacts.
Import Events Risk.

Lemma same_keys_init : same_keys init.
Proof.
  intros sid. simpl. rewrite !lookup_empty.
  split; split; intros [x Hx]; discriminate.
Qed.

Lemma same_keys_register sid cfg st :
  same_keys st -> same_keys (register_strategy sid cfg st).
Proof.
  intros Hk j. destruct (Hk j) as [H1 H2]. simpl.
  rewrite !lookup_insert_is_Some'. split; tauto.
Qed.

Lemma same_keys_record_loss sid loss st :
  same_keys st -> same_keys (record_loss sid loss st).
Proof.
  intros Hk j. unfold record_loss.
  destruct (daily_loss st !! sid) as [cur|] eqn:E; [|apply Hk].
  destruct (Hk j) as [H1 H2]. simpl.
  rewrite lookup_insert_is_Some'. split; [|exact H2].
  split; [tauto|]. intros [->|H]; [|tauto].
  apply H1. rewrite E. eexists; reflexivity.
Qed.

Lemma same_keys_record_trade sid st :
  same_keys st -> same_keys (record_trade sid st).
Proof.
  intros Hk j. unfold record_trade.
  destruct (trade_count st !! sid) as [n|] eqn:E; [|apply Hk].
  destruct (Hk j) as [H1 H2]. simpl.
  rewrite lookup_insert_is_Some'. split; [exact H1|].
  split; [tauto|]. intros [->|H]; [|tauto].
  apply H2. rewrite E. eexists; reflexivity.
Qed.

Lemma same_keys_reset_daily sid st :
  same_keys st -> same_keys (reset_daily sid st).
Proof.
  intros Hk j. unfold reset_daily.
  destruct (daily_loss st !! sid) as [cur|] eqn:E; [|apply Hk].
  destruct (Hk j) as [H1 H2]. simpl.
  rewrite !lookup_insert_is_Some'.
  assert (Hs : is_Some (configs st !! sid)).
  { apply (proj1 (Hk sid)). rewrite E. eexists; reflexivity. }
  split; (split; [tauto|]); (intros [->|H]; [exact Hs|tauto]).
Qed.

Create HintDb risk.
#[local] Hint Resolve same_keys_init same_keys_register same_keys_record_loss
  same_keys_record_trade same_keys_reset_daily : risk.

(** Every state the engine can reach keeps the three dicts aligned. *)
Lemma reachable_same_keys st : reachable st -> same_keys st.
Proof. induction 1; auto with risk. Qed.

Lemma registered_has_counters st sid cfg :
  same_keys st -> configs st !! sid = Some cfg ->
  exists loss count,
    daily_loss st !! sid = Some loss /\ trade_count st !! sid = Some count.
Proof.
  intros Hk Hc. destruct (Hk sid) as [H1 H2].
  assert (Hs : is_Some (configs st !! sid)) by (rewrite Hc; eexists; reflexivity).
  destruct (proj1 H1 Hs) as [loss Hl]. destruct (proj1 H2 Hs) as [count Hn].
  exists loss, count. split; assumption.
Qed.

Lemma unregistered_has_no_counters st sid :
  same_keys st -> configs st !! sid = None ->
  daily_loss st !! sid = None /\ trade_count st !! sid = None.
Proof.
  intros Hk Hc. destruct (Hk sid) as [H1 H2].
  split; apply eq_None_not_Some; intros Hs.
  - apply H1 in Hs. rewrite Hc in Hs. destruct Hs; discriminate.
  - apply H2 in Hs. rewrite Hc in Hs. destruct Hs; discriminate.
Qed.

End RiskFacts.

(** C1.  For a signal [validate_signal] checks, in this order and stopping
    at the first failure: the strategy has a registered config (otherwise
    blocked with reason "Strategy not registered"); its accumulated daily
    loss is below [max_daily_loss] (otherwise blocked); its trade count is
    below [max_trades_per_day] (otherwise blocked); else the signal is
    allowed.  So a signal is never allowed once either limit is reached. *)
Theorem validate_signal_priority (st : Risk.RiskEngine) (signal : Events.SignalEvent) :
  Risk.reachable st ->
  let sid := Events.sig_strategy_id signal in
  let verdict := Risk.validate_signal st signal in
  (Risk.configs st !! sid = None ->
     Risk.BlockedWith Events.NotRegistered verdict /\
     Events.reason_text Events.NotRegistered = "Strategy not registered") /\
  (forall cfg, Risk.configs st !! sid = Some cfg ->
     exists loss count,
       Risk.daily_loss st !! sid = Some loss /\
       Risk.trade_count st !! sid = Some count /\
       ((Risk.max_daily_loss cfg <= loss)%Q ->
          Risk.BlockedWith (Events.DailyLossLimit loss) verdict) /\
       (~ (Risk.max_daily_loss cfg <= loss)%Q ->
          (Risk.max_trades_per_day cfg <= count)%Z ->
          Risk.BlockedWith (Events.MaxTrades count) verdict) /\
       (~ (Risk.max_daily_loss cfg <= loss)%Q ->
          ~ (Risk.max_trades_per_day cfg <= count)%Z ->
          Risk.Allowed verdict) /\
       ((Risk.max_daily_loss cfg <= loss)%Q \/
        (Risk.max_trades_per_day cfg <= count)%Z ->
          Risk.Blocked verdict /\ ~ Risk.Allowed verdict)).
Proof.
  intros Hreach sid verdict.
  pose proof (reachable_same_keys st Hreach) as Hk.
  subst verdict. unfold Risk.validate_signal. fold sid.
  split.
  - intros Hnone. rewrite Hnone. split; [|reflexivity].
    eexists. split; reflexivity.
  - intros cfg Hcfg. rewrite Hcfg.
    destruct (registered_has_counters st sid cfg Hk Hcfg) as (loss & count & Hl & Hc).
    exists loss, count. split; [exact Hl|]. split; [exact Hc|].
    unfold Py.getitem. rewrite Hl. simpl.
    assert (Hblocked : forall b : Events.RiskBlockEvent,
               Risk.Blocked (Py.Ok (Some b)) /\ ~ Risk.Allowed (Py.Ok (Some b))).
    { intros b. split; [exists b; reflexivity | intros Habs; discriminate Habs]. }
    destruct (Py.leb (Risk.max_daily_loss cfg) loss) eqn:Eloss.
    + apply leb_le in Eloss.
      split; [|split; [|split]].
      * intros _. eexists. split; reflexivity.
      * intros Hn. contradiction.
      * intros Hn. contradiction.
      * intros _. apply Hblocked.
    + apply leb_nle in Eloss. rewrite Hc. simpl.
      destruct (Risk.max_trades_per_day cfg <=? count)%Z eqn:Ecount.
      * apply Z.leb_le in Ecount.
        split; [|split; [|split]].
        -- intros Hle. contradiction.
        -- intros _ _. eexists. split; reflexivity.
        -- intros _ Hn. contradiction.
        -- intros _. apply Hblocked.
      * apply Z.leb_gt in Ecount.
        split; [|split; [|split]].
        -- intros Hle. contradiction.
        -- intros _ Hle. lia.
        -- intros _ _. reflexivity.
        -- intros [Hle|Hle]; [contradiction|lia].
Qed.

Lemma validate_signal_priority_witness :
  Risk.reachable Fixtures.risk_one /\
  Risk.Allowed (Risk.validate_signal Fixtures.risk_one (Fixtures.signal_for 1)) /\
  Risk.BlockedWith Events.NotRegistered
    (Risk.validate_signal Fixtures.risk_one (Fixtures.signal_for 2)).
Proof.
  assert (Hr : Risk.reachable Fixtures.risk_one)
    by (apply Risk.reach_register, Risk.reach_init).
  split; [exact Hr|]. split.
  - destruct (validate_signal_priority Fixtures.risk_one (Fixtures.signal_for 1) Hr)
      as [_ Hreg].
    destruct (Hreg Risk.RiskConfig_default eq_refl)
      as (loss & count & Hl & Hc & _ & _ & Hallow & _).
    assert (loss = 0%Q) as -> by (vm_compute in Hl; congruence).
    assert (count = 0%Z) as -> by (vm_compute in Hc; congruence).
    apply Hallow.
    + intros Hle. vm_compute in Hle. apply Hle. reflexivity.
    + unfold Risk.RiskConfig_default. simpl. lia.
  - destruct (validate_signal_priority Fixtures.risk_one (Fixtures.signal_for 2) Hr)
      as [Hunreg _].
    exact (proj1 (Hunreg eq_refl)).
Defined.

(** C10.  [record_trade], [record_loss] and [reset_daily] called with a
    strategy id that was never registered leave the whole risk state as it
    was: no counter is created or changed, and nothing is raised. *)
Theorem unregistered_calls_change_nothing (st : Risk.RiskEngine) (sid : Z) (loss : Q) :
  Risk.reachable st ->
  Risk.configs st !! sid = None ->
  Risk.record_trade sid st = st /\
  Risk.record_loss sid loss st = st /\
  Risk.reset_daily sid st = st.
Proof.
  intros Hreach Hnone.
  destruct (unregistered_has_no_counters st sid (reachable_same_keys st Hreach) Hnone)
    as [Hl Hc].
  unfold Risk.record_trade, Risk.record_loss, Risk.reset_daily.
  rewrite Hl, Hc. repeat split.
Qed.

Lemma unregistered_calls_change_nothing_witness :
  Risk.reachable Fixtures.risk_one /\
  Risk.configs Fixtures.risk_one !! 2 = None /\
  Risk.daily_loss (Risk.record_loss 2 (250 # 1) Fixtures.risk_one)
    = Risk.daily_loss Fixtures.risk_one /\
  Risk.trade_count (Risk.record_trade 2 Fixtures.risk_one)
    = Risk.trade_count Fixtures.risk_one /\
  Risk.reset_daily 2 Fixtures.risk_one = Fixtures.risk_one.
Proof.
  assert (Hr : Risk.reachable Fixtures.risk_one)
    by (apply Risk.reach_register, Risk.reach_init).
  assert (Hn : Risk.configs Fixtures.risk_one !! 2 = None) by reflexivity.
  destruct (unregistered_calls_change_nothing Fixtures.risk_one 2 (250 # 1) Hr Hn)
    as (Ht & Hl & Hd).
  split; [exact Hr|]. split; [exact Hn|].
  rewrite Ht, Hl, Hd. repeat split.
Defined.

(* ===================================================================== *)
(** * The rule evaluator                                                  *)
(* ===================================================================== *)

Section RuleFacts.
Import Rules.

Variable float_of_str : string -> option Q.

Lemma resolve_operand (x : json) (data : gmap string Q) :
  is_operand x -> exists v, _resolve_value float_of_str x data = Py.Ok v.
Proof.
  destruct x as [| b | q | s | items | fields]; simpl; try contradiction; intros _.
  - eexists. reflexivity.
  - unfold _resolve_value. simpl.
    destruct (float_of_str s); eexists; reflexivity.
Qed.





Lemma dict_get_fresh {V : Type} (d : Py.dict Z V) (k : Z) :
  k ∉ Py.keys d -> Py.dict_get d k = None.
Proof.
  induction d as [|[k' v] d IH]; simpl; intros Hnin; [reflexivity|].
  rewrite not_elem_of_cons in Hnin. destruct Hnin as [Hne Hnin].
  rewrite decide_False by exact Hne. apply IH. exact Hnin.
Qed.

(** What the loop of [evaluate_all] leaves in [results]: the literal BUY
    for a rule that triggers, NONE for one that does not, and the earlier
    entry for an id that is not iterated over. *)
Lemma evaluate_all_loop_get (items : list (Z * Rule)) (data : gmap string Q)
    (acc results : Py.dict Z string) (rule_id : Z) :
  NoDup (Py.keys items) ->
  evaluate_all_loop float_of_str items data acc = Py.Ok results ->
  match Py.dict_get items rule_id with
  | Some rule =>
      exists triggered,
        Rule_evaluate float_of_str rule data = Py.Ok triggered /\
        Py.dict_get results rule_id = Some (if triggered then "BUY" else "NONE")
  | None => Py.dict_get results rule_id = Py.dict_get acc rule_id
  end.
Proof.
  revert acc. induction items as [|[k r] rest IH]; intros acc Hnd Hrun; simpl in *.
  - injection Hrun as <-. reflexivity.
  - inversion Hnd as [|? ? Hk Hrest]; subst.
    destruct (Rule_evaluate float_of_str r data) as [b|e] eqn:Hr; simpl in Hrun;
      [|discriminate].
    specialize (IH _ Hrest Hrun).
    destruct (decide (rule_id = k)) as [->|Hne].
    + rewrite (dict_get_fresh rest k Hk) in IH.
      rewrite dict_get_set_eq in IH.
      exists b. split; [exact Hr | exact IH].
    + destruct (Py.dict_get rest rule_id); [exact IH|].
      rewrite IH. apply dict_get_set_ne. congruence.
Qed.

Lemma dict_set_keys {V : Type} (d : Py.dict Z V) (k : Z) (v : V) :
  Py.keys (Py.dict_set k v d) =
    if decide (k ∈ Py.keys d) then Py.keys d else Py.keys d ++ [k].
Proof.
  induction d as [|[k' v'] d IH]; simpl.
  - destruct (decide (k ∈ [])) as [Hin|]; [|reflexivity].
    apply elem_of_nil in Hin. contradiction.
  - destruct (decide (k = k')) as [->|Hne]; simpl.
    + destruct (decide (k' ∈ k' :: Py.keys d)) as [_|Hn]; [reflexivity|].
      exfalso. apply Hn, elem_of_cons. left. reflexivity.
    + rewrite IH.
      destruct (decide (k ∈ Py.keys d)) as [Hin|Hnin];
        destruct (decide (k ∈ k' :: Py.keys d)) as [Hor|Hnor];
        try reflexivity.
      * exfalso. apply Hnor, elem_of_cons. right. exact Hin.
      * exfalso. apply elem_of_cons in Hor as [Heq|Hin]; [congruence | contradiction].
Qed.

(** Registering rules keeps the rule ids of the engine distinct. *)
Lemma register_rule_keys_nodup (rule_id : Z) (src : Py.result json) (eng : RuleEngine) :
  NoDup (Py.keys (rules eng)) ->
  NoDup (Py.keys (rules (register_rule rule_id src eng).1)).
Proof.
  intros Hnd. unfold register_rule.
  destruct (parse_rule_json src) as [rule|]; simpl; [|exact Hnd].
  rewrite dict_set_keys.
  destruct (decide (rule_id ∈ Py.keys (rules eng))) as [|Hnin]; [exact Hnd|].
  apply NoDup_app. repeat split.
  - exact Hnd.
  - intros k Hk Hk'. apply list_elem_of_singleton in Hk' as ->. contradiction.
  - apply NoDup_singleton.
Qed.

(** [evaluate_all] on a snapshot: a registered rule that triggers is
    reported as BUY and one that does not as NONE, whatever its action,
    and the entry of a rule depends on no other rule. *)
Lemma evaluate_all_get (eng : RuleEngine) (data : gmap string Q)
    (results : Py.dict Z string) (rule_id : Z) (rule : Rule) :
  NoDup (Py.keys (rules eng)) ->
  evaluate_all float_of_str eng data = Py.Ok results ->
  Py.dict_get (rules eng) rule_id = Some rule ->
  exists triggered,
    Rule_evaluate float_of_str rule data = Py.Ok triggered /\
    Py.dict_get results rule_id = Some (if triggered then "BUY" else "NONE").
Proof.
  intros Hnd Hrun Hget.
  pose proof (evaluate_all_loop_get (rules eng) data [] results rule_id Hnd Hrun) as H.
  rewrite Hget in H. exact H.
Qed.

End RuleFacts.




(** Scenario B of the test suite: with OR, the EMA condition alone fires
    the rule. *)
Example or_rule_fires_on_one_condition :
  let eng := (Rules.register_rule 1 (Py.Ok Fixtures.ema_or_rsi) Rules.RuleEngine_init).1 in
  Rules.evaluate Fixtures.decimal_float eng 1 (Fixtures.snapshot 100 99 50)
    = Py.Ok "SELL" /\
  Rules.evaluate Fixtures.decimal_float eng 1 (Fixtures.snapshot 98 99 50)
    = Py.Ok "NONE".
Proof. split; reflexivity. Qed.

(** C4.  On the OR rule of the test suite, whose registered action is
    SELL, and a snapshot that triggers it, [evaluate] answers SELL while
    [evaluate_all] maps the same rule id to BUY. *)
Theorem evaluate_all_reports_buy_for_sell_rule :
  let eng := (Rules.register_rule 1 (Py.Ok Fixtures.ema_or_rsi) Rules.RuleEngine_init).1 in
  let data := Fixtures.snapshot 100 99 50 in
  Rules.evaluate Fixtures.decimal_float eng 1 data = Py.Ok "SELL" /\
  Rules.evaluate_all Fixtures.decimal_float eng data = Py.Ok [(1, "BUY")].
Proof. split; reflexivity. Qed.

(** C5.  CROSS_ABOVE and CROSS_BELOW evaluate exactly as [>] and [<] on
    the current snapshot; a condition whose left operand was above the
    right one on the previous tick is true again on the next tick. *)
Theorem cross_operators_are_plain_comparisons :
  (forall float_of_str l r data,
     Rules.RuleCondition_evaluate float_of_str
       (Rules.mkRuleCondition l (Rules.JStr "CROSS_ABOVE") r) data =
     Rules.RuleCondition_evaluate float_of_str
       (Rules.mkRuleCondition l (Rules.JStr ">") r) data) /\
  (forall float_of_str l r data,
     Rules.RuleCondition_evaluate float_of_str
       (Rules.mkRuleCondition l (Rules.JStr "CROSS_BELOW") r) data =
     Rules.RuleCondition_evaluate float_of_str
       (Rules.mkRuleCondition l (Rules.JStr "<") r) data) /\
  Rules.RuleCondition_evaluate Fixtures.decimal_float Fixtures.ema_cross
    (Fixtures.snapshot 100 99 65) = Py.Ok true /\
  Rules.RuleCondition_evaluate Fixtures.decimal_float Fixtures.ema_cross
    (Fixtures.snapshot 101 99 65) = Py.Ok true.
Proof.
  split; [|split; [|split; reflexivity]];
    intros float_of_str l r data; unfold Rules.RuleCondition_evaluate; simpl;
    destruct (Rules._resolve_value float_of_str l data) as [[lv|]|e]; simpl;
      try reflexivity;
    destruct (Rules._resolve_value float_of_str r data) as [[rv|]|e]; simpl;
      reflexivity.
Qed.



(* ===================================================================== *)
(** * The execution boundary                                              *)
(* ===================================================================== *)

Section PaperFacts.
Import Events Execution.




End PaperFacts.



Section LiveFacts.
Import Events Execution.

Variable World : Type.
Variable post_place : Broker.PlacePayload -> World -> Py.result Broker.PlaceResult * World.
Variable get_order : option string -> World -> Py.result Broker.StatusResult * World.

(** One submission of an order that carries a client id, by an
    authenticated client: a fill comes back exactly when the remote end
    acknowledges the placement, and the order keeps its client id. *)
Lemma live_execute_once (h : LiveFyersExecutionHandler) (fresh : string)
    (order : OrderEvent) (w : World) :
  Broker.truthy (ord_client_order_id order) = true ->
  Broker.truthy (Broker.access_token (fyers h)) = true ->
  let out := live_execute_order World post_place get_order h fresh order w in
  (is_Some out.1.1 <-> Broker.acknowledged (post_place (order_payload order) w).1) /\
  order_payload out.1.2 = order_payload order /\
  ord_client_order_id out.1.2 = ord_client_order_id order.
Proof.
  intros Hcid Htok out. subst out.
  unfold live_execute_order, Broker.place_order, Broker.get_order_status, Broker.acknowledged.
  rewrite Hcid, Htok. simpl.
  fold (order_payload order).
  destruct (post_place (order_payload order) w) as [[r|e] w1]; simpl.
  - destruct (bool_decide (Broker.res_status r = Some "success")) eqn:Hack; simpl.
    + apply bool_decide_eq_true in Hack.
      destruct (get_order (Broker.res_id r) w1) as [[st|e] w2]; simpl.
      * split; [|split; reflexivity].
        split; [intros _; exists r; split; [reflexivity|exact Hack] | intros _; eexists; reflexivity].
      * split; [|split; reflexivity].
        split; [intros _; exists r; split; [reflexivity|exact Hack] | intros _; eexists; reflexivity].
    + apply bool_decide_eq_false in Hack.
      split; [|split; reflexivity].
      split; [intros [x Hx]; discriminate|].
      intros (r' & Hr' & Hs). injection Hr' as <-. contradiction.
  - split; [|split; reflexivity].
    split; [intros [x Hx]; discriminate|].
    intros (r' & Hr' & Hs). discriminate.
Qed.

(** One submission adds exactly one placement request to the journal. *)
Lemma live_execute_journal (h : LiveFyersExecutionHandler) (fresh : string)
    (order : OrderEvent) (w : World) (journal : list Broker.PlacePayload) :
  Broker.truthy (ord_client_order_id order) = true ->
  Broker.truthy (Broker.access_token (fyers h)) = true ->
  (live_execute_order (World * list Broker.PlacePayload)
     (Broker.recording post_place) (Broker.unrecorded get_order)
     h fresh order (w, journal)).2.2
  = journal ++ [order_payload order].
Proof.
  intros Hcid Htok.
  unfold live_execute_order, Broker.place_order, Broker.get_order_status.
  rewrite Hcid, Htok. simpl.
  fold (order_payload order).
  unfold Broker.recording at 1. simpl.
  destruct (post_place (order_payload order) w) as [[r|e] w1]; simpl; [|reflexivity].
  destruct (bool_decide (Broker.res_status r = Some "success")); simpl; [|reflexivity].
  unfold Broker.unrecorded. simpl.
  destruct (get_order (Broker.res_id r) w1) as [[st|e] w2]; reflexivity.
Qed.

End LiveFacts.

(** C7, as the code has it.  The live handler keeps no record of the ids
    it has submitted: an order that carries a client id, submitted twice,
    reaches the broker as two placement requests with that same client id,
    and each submission yields a Fill exactly when the broker answers its
    placement with status success. *)
Theorem live_execute_resends_same_client_id (World : Type)
    (post_place : Broker.PlacePayload -> World -> Py.result Broker.PlaceResult * World)
    (get_order : option string -> World -> Py.result Broker.StatusResult * World)
    (h : Execution.LiveFyersExecutionHandler) (fresh1 fresh2 : string)
    (order : Events.OrderEvent) (w : World) :
  Broker.truthy (Events.ord_client_order_id order) = true ->
  Broker.truthy (Broker.access_token (Execution.fyers h)) = true ->
  let payload := Execution.order_payload order in
  let first := Execution.live_execute_order World post_place get_order h fresh1 order w in
  let both := Execution.execute_twice World post_place get_order h fresh1 fresh2 order w in
  let journaled :=
    Execution.execute_twice (World * list Broker.PlacePayload)
      (Broker.recording post_place) (Broker.unrecorded get_order)
      h fresh1 fresh2 order (w, []) in
  Broker.p_clientId payload = Events.ord_client_order_id order /\
  journaled.2.2 = [payload; payload] /\
  (is_Some both.1.1 <-> Broker.acknowledged (post_place payload w).1) /\
  (is_Some both.1.2 <-> Broker.acknowledged (post_place payload first.2).1).
Proof.
  intros Hcid Htok payload first both journaled. subst payload.
  split; [|split].
  - unfold Execution.order_payload, Broker.place_payload. simpl.
    rewrite Hcid. reflexivity.
  - subst journaled. unfold Execution.execute_twice.
    pose proof (live_execute_once _ (Broker.recording post_place)
                  (Broker.unrecorded get_order) h fresh1 order (w, []) Hcid Htok)
      as (_ & Hpay & Hsame).
    pose proof (live_execute_journal World post_place get_order h fresh1 order w []
                  Hcid Htok) as Hj1.
    destruct (Execution.live_execute_order _ (Broker.recording post_place)
                (Broker.unrecorded get_order) h fresh1 order (w, []))
      as [[fill1 order1] [w1 j1]].
    simpl in Hpay, Hsame, Hj1. subst j1.
    assert (Hcid1 : Broker.truthy (Events.ord_client_order_id order1) = true)
      by (rewrite Hsame; exact Hcid).
    pose proof (live_execute_journal World post_place get_order h fresh2 order1 w1
                  [Execution.order_payload order] Hcid1 Htok) as Hj2.
    destruct (Execution.live_execute_order _ (Broker.recording post_place)
                (Broker.unrecorded get_order) h fresh2 order1
                (w1, [Execution.order_payload order]))
      as [[fill2 order2] [w2 j2]].
    simpl in Hj2 |- *. rewrite Hj2, Hpay. reflexivity.
  - subst both first. unfold Execution.execute_twice.
    pose proof (live_execute_once World post_place get_order h fresh1 order w
                  Hcid Htok) as (Hfill1 & Hpay & Hsame).
    destruct (Execution.live_execute_order World post_place get_order h fresh1 order w)
      as [[fill1 order1] w1].
    simpl in Hfill1, Hpay, Hsame.
    assert (Hcid1 : Broker.truthy (Events.ord_client_order_id order1) = true)
      by (rewrite Hsame; exact Hcid).
    pose proof (live_execute_once World post_place get_order h fresh2 order1 w1
                  Hcid1 Htok) as (Hfill2 & _ & _).
    destruct (Execution.live_execute_order World post_place get_order h fresh2 order1 w1)
      as [[fill2 order2] w2].
    simpl in Hfill2 |- *. rewrite Hpay in Hfill2.
    split; assumption.
Qed.

(** Against a remote end that acknowledges every placement, the same
    order with the same client id produces a Fill on each submission. *)
Lemma live_execute_resends_same_client_id_witness :
  let order := Fixtures.market_order "BUY" 10 100 (Some "order_0123456789ab") in
  let journaled :=
    Execution.execute_twice (nat * list Broker.PlacePayload)
      (Broker.recording Fixtures.accept_place)
      (Broker.unrecorded Fixtures.report_filled)
      Fixtures.live_handler "aaaaaaaaaaaa" "bbbbbbbbbbbb" order (0%nat, []) in
  Broker.truthy (Events.ord_client_order_id order) = true /\
  Broker.truthy (Broker.access_token (Execution.fyers Fixtures.live_handler)) = true /\
  map Broker.p_clientId journaled.2.2
    = [Some "order_0123456789ab"; Some "order_0123456789ab"].
Proof.
  intros order journaled.
  split; [reflexivity|]. split; [reflexivity|].
  destruct (live_execute_resends_same_client_id nat Fixtures.accept_place
              Fixtures.report_filled Fixtures.live_handler
              "aaaaaaaaaaaa" "bbbbbbbbbbbb" order 0%nat eq_refl eq_refl)
    as (Hid & Hjournal & _).
  subst journaled. rewrite Hjournal. cbn [map]. rewrite Hid. reflexivity.
Defined.

(** C7 as the spec words it fails: two submissions of one order with one
    client id to a remote end that acknowledges every placement come back
    with two Fills, and the remote end has seen two placements. *)
Lemma accepting_broker_fills_twice :
  let order := Fixtures.market_order "BUY" 10 100 (Some "order_0123456789ab") in
  let both :=
    Execution.execute_twice nat Fixtures.accept_place Fixtures.report_filled
      Fixtures.live_handler "aaaaaaaaaaaa" "bbbbbbbbbbbb" order 0%nat in
  is_Some both.1.1 /\ is_Some both.1.2 /\ both.2 = 2%nat.
Proof.
  vm_compute. repeat split; eexists; reflexivity.
Qed.

(* ===================================================================== *)
(** * The orchestrator                                                    *)
(* ===================================================================== *)

(** C6, as the code has it.  Handling a fill adds the fill's quantity
    field to the ledger entry of the fill's symbol (an absent entry counts
    as 0) and leaves every other entry alone; it calls [record_trade] on
    the risk engine, so the trade count of a registered strategy goes up by
    one; it does not touch the accumulated daily loss. *)
Theorem on_fill_updates_ledger_and_trade_count (event : Events.FillEvent)
    (eng : Core.TradingEngine) :
  let eng' := Core._on_fill_event event eng in
  Core.get_position eng' (Events.fill_symbol event) =
    (Core.get_position eng (Events.fill_symbol event) + Events.fill_quantity event)%Q /\
  (forall symbol, symbol <> Events.fill_symbol event ->
     Core.get_position eng' symbol = Core.get_position eng symbol) /\
  Core.risk_engine eng' =
    Risk.record_trade (Events.fill_strategy_id event) (Core.risk_engine eng) /\
  (forall n, Risk.trade_count (Core.risk_engine eng) !! Events.fill_strategy_id event = Some n ->
     Risk.trade_count (Core.risk_engine eng') !! Events.fill_strategy_id event = Some (n + 1)) /\
  Risk.daily_loss (Core.risk_engine eng') = Risk.daily_loss (Core.risk_engine eng).
Proof.
  intros eng'. subst eng'. unfold Core._on_fill_event, Core.get_position. simpl.
  split; [|split; [|split; [|split]]].
  - rewrite lookup_insert_eq. reflexivity.
  - intros symbol Hne. rewrite lookup_insert_ne by congruence. reflexivity.
  - reflexivity.
  - intros n Hn. unfold Risk.record_trade. rewrite Hn. simpl.
    apply lookup_insert_eq.
  - unfold Risk.record_trade.
    destruct (Risk.trade_count (Core.risk_engine eng) !! Events.fill_strategy_id event);
      reflexivity.
Qed.

(** C6 as the spec words it fails on a SELL: the paper fill of a SELL
    order for 10 units raises the position from 0 to 10 instead of lowering
    it by 10, and the accumulated daily loss is what it was. *)
Lemma sell_fill_raises_position :
  let order := Fixtures.market_order "SELL" 10 100 None in
  let fill := Execution.paper_execute_order Fixtures.paper_no_partial order Fixtures.draws in
  let eng := Core.mkTradingEngine ∅ Fixtures.risk_one true in
  let eng' := Core._on_fill_event fill eng in
  Events.ord_side order = "SELL" /\
  (Core.get_position eng "NSE:SBIN-EQ" == 0)%Q /\
  (Core.get_position eng' "NSE:SBIN-EQ" == 10)%Q /\
  ~ (Core.get_position eng' "NSE:SBIN-EQ"
       == Core.get_position eng "NSE:SBIN-EQ" - Events.fill_quantity fill)%Q /\
  Risk.daily_loss (Core.risk_engine eng') !! 1 = Some 0%Q.
Proof.
  vm_compute. repeat split; discriminate.
Qed.

(* ===================================================================== *)
(** * The kill switch                                                     *)
(* ===================================================================== *)

Section KillSwitchFacts.
Import Api.

Lemma is_active_for_spec (uid : Z) (o : Order) :
  is_active_for uid o = true <-> user_id o = uid /\ status o ∈ active_statuses.
Proof.
  unfold is_active_for. rewrite andb_true_iff, !bool_decide_eq_true. reflexivity.
Qed.

Lemma elem_of_query_active (uid : Z) (db : Table) (k : Z) :
  k ∈ query_active uid db <->
  exists o, db !! k = Some o /\ user_id o = uid /\ status o ∈ active_statuses.
Proof.
  unfold query_active. rewrite list_elem_of_fmap. split.
  - intros ([k' o] & -> & Hin). apply elem_of_map_to_list in Hin.
    apply map_lookup_filter_Some in Hin as [Hlook Hact]. simpl in *.
    exists o. split; [exact Hlook|]. apply is_active_for_spec. exact Hact.
  - intros (o & Hlook & Hact). exists (k, o). split; [reflexivity|].
    apply elem_of_map_to_list. apply map_lookup_filter_Some.
    split; [exact Hlook|]. simpl. apply is_active_for_spec. exact Hact.
Qed.

Lemma cancel_loop_count (ks : list Z) (db : Table) (n : nat) :
  (cancel_loop ks db n).2 = (n + length ks)%nat.
Proof.
  revert db n. induction ks as [|k ks IH]; intros db n; simpl.
  - lia.
  - rewrite IH. lia.
Qed.

(** The rows a handle of the list points at are cancelled; the others are
    as they were. *)
Lemma cancel_loop_lookup (ks : list Z) (db : Table) (n : nat) (k : Z) :
  (cancel_loop ks db n).1 !! k =
    if decide (k ∈ ks) then set_status CANCELED <$> db !! k else db !! k.
Proof.
  revert db n. induction ks as [|k0 ks IH]; intros db n; cbn [cancel_loop fst].
  - destruct (decide (k ∈ [])) as [Hin|]; [|reflexivity].
    apply elem_of_nil in Hin. contradiction.
  - rewrite IH. destruct (decide (k = k0)) as [->|Hne].
    + rewrite lookup_alter_eq.
      destruct (decide (k0 ∈ k0 :: ks)) as [_|Hnin];
        [|exfalso; apply Hnin, elem_of_cons; left; reflexivity].
      destruct (decide (k0 ∈ ks)); [|reflexivity].
      destruct (db !! k0); reflexivity.
    + rewrite lookup_alter_ne by congruence.
      destruct (decide (k ∈ ks)) as [Hin|Hnin];
        destruct (decide (k ∈ k0 :: ks)) as [Hin'|Hnin']; try reflexivity.
      * exfalso. apply Hnin', elem_of_cons. right. exact Hin.
      * exfalso. apply elem_of_cons in Hin' as [?|?]; contradiction.
Qed.

End KillSwitchFacts.

(** C2.  After [activate_kill_switch] for a user, each of that user's
    orders that was CREATED, VALIDATED, SENT, ACK or PARTIAL is CANCELED
    (and otherwise the same row); an order that was FILLED, REJECTED or
    CANCELED, and any order of another user, is unchanged; no row appears;
    and the returned count is the number of that user's orders that were
    in one of the five active states at the time of the call. *)
Theorem kill_switch_cancels_exactly_active (uid : Z) (db : Api.Table) :
  let db' := (Api.activate_kill_switch uid db).1 in
  let cancelled := (Api.activate_kill_switch uid db).2 in
  (forall k o, db !! k = Some o -> Api.user_id o = uid ->
     Api.status o ∈ [Api.CREATED; Api.VALIDATED; Api.SENT; Api.ACK; Api.PARTIAL] ->
     db' !! k = Some (Api.set_status Api.CANCELED o) /\
     Api.status (Api.set_status Api.CANCELED o) = Api.CANCELED) /\
  (forall k o, db !! k = Some o ->
     Api.status o ∈ [Api.FILLED; Api.REJECTED; Api.CANCELED] ->
     db' !! k = Some o) /\
  (forall k o, db !! k = Some o -> Api.user_id o <> uid -> db' !! k = Some o) /\
  (forall k, db !! k = None -> db' !! k = None) /\
  cancelled =
    size (filter (fun kv : Z * Api.Order =>
                    Api.user_id kv.2 = uid /\
                    Api.status kv.2 ∈ [Api.CREATED; Api.VALIDATED; Api.SENT; Api.ACK; Api.PARTIAL])
            db).
Proof.
  intros db' cancelled. subst db' cancelled. unfold Api.activate_kill_switch.
  split; [|split; [|split; [|split]]].
  - intros k o Hlook Huser Hact. split; [|reflexivity].
    rewrite cancel_loop_lookup, Hlook.
    rewrite decide_True; [reflexivity|].
    apply elem_of_query_active. exists o. repeat split; assumption.
  - intros k o Hlook Hterm.
    rewrite cancel_loop_lookup, Hlook.
    destruct (decide (k ∈ Api.query_active uid db)) as [Hin|]; [|reflexivity].
    apply elem_of_query_active in Hin as (o' & Hlook' & _ & Hact).
    assert (o' = o) as -> by congruence.
    exfalso. unfold Api.active_statuses in Hact.
    apply list_elem_of_In in Hact. apply list_elem_of_In in Hterm.
    simpl in Hact, Hterm. destruct (Api.status o); intuition discriminate.
  - intros k o Hlook Hother.
    rewrite cancel_loop_lookup, Hlook.
    destruct (decide (k ∈ Api.query_active uid db)) as [Hin|]; [|reflexivity].
    apply elem_of_query_active in Hin as (o' & Hlook' & Huser & _).
    assert (o' = o) as -> by congruence. contradiction.
  - intros k Hnone. rewrite cancel_loop_lookup, Hnone.
    destruct (decide (k ∈ Api.query_active uid db)); reflexivity.
  - rewrite cancel_loop_count. simpl. unfold Api.query_active.
    rewrite length_fmap, length_map_to_list. f_equal.
    apply map_filter_ext. intros k o _. simpl. apply is_active_for_spec.
Qed.

(** The table of the fixtures: user 7 has a SENT, a FILLED and a PARTIAL
    order, user 8 a CREATED one. *)
Example kill_switch_on_fixture :
  let out := Api.activate_kill_switch 7 Fixtures.orders in
  out.2 = 2%nat /\
  Api.status <$> out.1 !! 1 = Some Api.CANCELED /\
  Api.status <$> out.1 !! 2 = Some Api.FILLED /\
  Api.status <$> out.1 !! 3 = Some Api.CREATED /\
  Api.status <$> out.1 !! 4 = Some Api.CANCELED.
Proof. vm_compute. repeat split. Qed.

(* ===================================================================== *)
(** * More about the risk gate                                            *)
(* ===================================================================== *)

Section RiskCounters.
Import Events Risk.

(** The verdict for a strategy whose three entries are known. *)
Lemma validate_signal_at (st : RiskEngine) (signal : SignalEvent)
    (cfg : RiskConfig) (loss : Q) (count : Z) :
  configs st !! sig_strategy_id signal = Some cfg ->
  daily_loss st !! sig_strategy_id signal = Some loss ->
  trade_count st !! sig_strategy_id signal = Some count ->
  validate_signal st signal =
    if Py.leb (max_daily_loss cfg) loss
    then Py.Ok (Some (mkRiskBlockEvent (sig_user_id signal) (sig_strategy_id signal)
                        (DailyLossLimit loss) (Some signal)))
    else if (max_trades_per_day cfg <=? count)%Z
    then Py.Ok (Some (mkRiskBlockEvent (sig_user_id signal) (sig_strategy_id signal)
                        (MaxTrades count) (Some signal)))
    else Py.Ok None.
Proof.
  intros Hc Hl Hn. unfold validate_signal, Py.getitem.
  rewrite Hc, Hl. simpl. rewrite Hn. simpl.
  destruct (Py.leb (max_daily_loss cfg) loss); reflexivity.
Qed.

Lemma after_trades (st : RiskEngine) (sid : Z) (cfg : RiskConfig) (k : nat) :
  configs (Nat.iter k (record_trade sid) (register_strategy sid cfg st)) !! sid
    = Some cfg /\
  daily_loss (Nat.iter k (record_trade sid) (register_strategy sid cfg st)) !! sid
    = Some 0%Q /\
  trade_count (Nat.iter k (record_trade sid) (register_strategy sid cfg st)) !! sid
    = Some (Z.of_nat k).
Proof.
  induction k as [|k IH].
  - simpl. rewrite !lookup_insert_eq. repeat split.
  - rewrite Nat.iter_succ. destruct IH as (Hc & Hl & Hn).
    set (prev := Nat.iter k (record_trade sid) (register_strategy sid cfg st)) in *.
    unfold record_trade. rewrite Hn.
    cbn [configs daily_loss trade_count].
    split; [exact Hc|]. split; [exact Hl|].
    rewrite lookup_insert_eq. f_equal. lia.
Qed.


End RiskCounters.

(** X1.  In every state the engine can reach, [validate_signal] returns a
    verdict: the subscripts on [daily_loss] and [trade_count] never raise
    [KeyError]. *)
Theorem validate_signal_never_raises (st : Risk.RiskEngine) (signal : Events.SignalEvent) :
  Risk.reachable st ->
  exists verdict, Risk.validate_signal st signal = Py.Ok verdict.
Proof.
  intros Hreach. pose proof (reachable_same_keys st Hreach) as Hk.
  destruct (Risk.configs st !! Events.sig_strategy_id signal) as [cfg|] eqn:Hc.
  - destruct (registered_has_counters st _ cfg Hk Hc) as (loss & count & Hl & Hn).
    rewrite (validate_signal_at st signal cfg loss count Hc Hl Hn).
    destruct (Py.leb _ _); [eexists; reflexivity|].
    destruct (_ <=? _)%Z; eexists; reflexivity.
  - unfold Risk.validate_signal. rewrite Hc. eexists. reflexivity.
Qed.

Lemma validate_signal_never_raises_witness :
  Risk.reachable (Risk.record_trade 1 Fixtures.risk_one) /\
  exists verdict,
    Risk.validate_signal (Risk.record_trade 1 Fixtures.risk_one) (Fixtures.signal_for 1)
      = Py.Ok verdict.
Proof.
  assert (Hr : Risk.reachable (Risk.record_trade 1 Fixtures.risk_one))
    by (apply Risk.reach_record_trade, Risk.reach_register, Risk.reach_init).
  split; [exact Hr|].
  exact (validate_signal_never_raises _ (Fixtures.signal_for 1) Hr).
Defined.

(** X2.  After a strategy is registered (or registered again) with a
    positive loss limit, [k] recorded trades leave its signals allowed as
    long as [k] is below [max_trades_per_day], and blocked for the trade
    count from then on. *)
Theorem trades_until_blocked (st : Risk.RiskEngine) (cfg : Risk.RiskConfig)
    (k : nat) (signal : Events.SignalEvent) :
  (0 < Risk.max_daily_loss cfg)%Q ->
  let sid := Events.sig_strategy_id signal in
  let st' := Nat.iter k (Risk.record_trade sid) (Risk.register_strategy sid cfg st) in
  ((Z.of_nat k < Risk.max_trades_per_day cfg)%Z ->
     Risk.Allowed (Risk.validate_signal st' signal)) /\
  ((Risk.max_trades_per_day cfg <= Z.of_nat k)%Z ->
     Risk.BlockedWith (Events.MaxTrades (Z.of_nat k)) (Risk.validate_signal st' signal)).
Proof.
  intros Hpos sid st'.
  destruct (after_trades st sid cfg k) as (Hc & Hl & Hn). fold st' in Hc, Hl, Hn.
  rewrite (validate_signal_at st' signal cfg 0%Q (Z.of_nat k) Hc Hl Hn).
  assert (Hloss : Py.leb (Risk.max_daily_loss cfg) 0 = false).
  { apply leb_nle. intros Hle. exact (Qlt_not_le _ _ Hpos Hle). }
  rewrite Hloss. split; intros Hk.
  - apply Z.leb_gt in Hk. rewrite Hk. reflexivity.
  - apply Z.leb_le in Hk. rewrite Hk. eexists. split; reflexivity.
Qed.

Lemma trades_until_blocked_witness :
  let after k :=
    Nat.iter k (Risk.record_trade 1) (Risk.register_strategy 1 Samples.tight Risk.init) in
  Risk.Allowed (Risk.validate_signal (after 2%nat) (Fixtures.signal_for 1)) /\
  Risk.BlockedWith (Events.MaxTrades 3)
    (Risk.validate_signal (after 3%nat) (Fixtures.signal_for 1)).
Proof.
  intros after.
  assert (Hpos : (0 < Risk.max_daily_loss Samples.tight)%Q) by reflexivity.
  split.
  - exact (proj1 (trades_until_blocked Risk.init Samples.tight 2 (Fixtures.signal_for 1) Hpos)
             eq_refl).
  - refine (proj2 (trades_until_blocked Risk.init Samples.tight 3 (Fixtures.signal_for 1) Hpos)
              _).
    discriminate.
Defined.


(** X4.  In a reachable state, [reset_daily] of a registered strategy
    gives the very state that registering it again with its own config
    gives: both counters at zero, everything else as it was. *)
Theorem reset_daily_is_reregistration (st : Risk.RiskEngine) (sid : Z)
    (cfg : Risk.RiskConfig) :
  Risk.reachable st ->
  Risk.configs st !! sid = Some cfg ->
  Risk.reset_daily sid st = Risk.register_strategy sid cfg st.
Proof.
  intros Hreach Hc.
  destruct (registered_has_counters st sid cfg (reachable_same_keys st Hreach) Hc)
    as (loss & count & Hl & Hn).
  unfold Risk.reset_daily, Risk.register_strategy. rewrite Hl.
  rewrite (insert_id (Risk.configs st) sid cfg Hc). reflexivity.
Qed.

Lemma reset_daily_is_reregistration_witness :
  let st := Risk.record_loss 1 (250 # 1) (Risk.record_trade 1 Fixtures.risk_one) in
  Risk.reachable st /\
  Risk.reset_daily 1 st = Risk.register_strategy 1 Risk.RiskConfig_default st.
Proof.
  intros st.
  assert (Hr : Risk.reachable st).
  { apply Risk.reach_record_loss, Risk.reach_record_trade,
      Risk.reach_register, Risk.reach_init. }
  split; [exact Hr|].
  exact (reset_daily_is_reregistration st 1 Risk.RiskConfig_default Hr eq_refl).
Defined.

(** X5.  Registering, recording a loss or a trade, or resetting one
    strategy does not change the verdict on a signal of another strategy. *)
Theorem other_strategy_keeps_verdict (st : Risk.RiskEngine) (sid : Z)
    (cfg : Risk.RiskConfig) (loss : Q) (signal : Events.SignalEvent) :
  sid <> Events.sig_strategy_id signal ->
  Risk.validate_signal (Risk.register_strategy sid cfg st) signal
    = Risk.validate_signal st signal /\
  Risk.validate_signal (Risk.record_loss sid loss st) signal
    = Risk.validate_signal st signal /\
  Risk.validate_signal (Risk.record_trade sid st) signal
    = Risk.validate_signal st signal /\
  Risk.validate_signal (Risk.reset_daily sid st) signal
    = Risk.validate_signal st signal.
Proof.
  intros Hne.
  unfold Risk.validate_signal, Py.getitem,
    Risk.register_strategy, Risk.record_loss, Risk.record_trade, Risk.reset_daily.
  repeat split.
  - simpl. rewrite !lookup_insert_ne by exact Hne. reflexivity.
  - destruct (Risk.daily_loss st !! sid); [|reflexivity].
    simpl. rewrite lookup_insert_ne by exact Hne. reflexivity.
  - destruct (Risk.trade_count st !! sid); [|reflexivity].
    simpl. rewrite lookup_insert_ne by exact Hne. reflexivity.
  - destruct (Risk.daily_loss st !! sid); [|reflexivity].
    simpl. rewrite !lookup_insert_ne by exact Hne. reflexivity.
Qed.

Lemma other_strategy_keeps_verdict_witness :
  (2 <> Events.sig_strategy_id (Fixtures.signal_for 1))%Z /\
  Risk.validate_signal (Risk.register_strategy 2 Samples.tight Fixtures.risk_one)
    (Fixtures.signal_for 1)
  = Risk.validate_signal Fixtures.risk_one (Fixtures.signal_for 1).
Proof.
  assert (Hne : (2 <> Events.sig_strategy_id (Fixtures.signal_for 1))%Z) by discriminate.
  split; [exact Hne|].
  exact (proj1 (other_strategy_keeps_verdict Fixtures.risk_one 2 Samples.tight 0
                  (Fixtures.signal_for 1) Hne)).
Defined.

(* ===================================================================== *)
(** * More about the rule evaluator                                       *)
(* ===================================================================== *)

Section RuleParsing.
Import Rules.

Lemma upper_ascii_idempotent (c : ascii) :
  Py.upper_ascii (Py.upper_ascii c) = Py.upper_ascii c.
Proof. destruct c as [[] [] [] [] [] [] [] []]; vm_compute; reflexivity. Qed.

Lemma upper_idempotent (s : string) : Py.upper (Py.upper s) = Py.upper s.
Proof.
  induction s as [|c s IH]; simpl; [reflexivity|].
  rewrite upper_ascii_idempotent, IH. reflexivity.
Qed.


(** A raising item makes the whole comprehension raise. *)
Lemma comprehension_raises {A B : Type} (f : A -> Py.result B)
    (before after : list A) (x : A) (e : Py.exn) :
  f x = Py.Raise e ->
  exists e', Py.comprehension f (before ++ x :: after) = Py.Raise e'.
Proof.
  intros Hx. rewrite comprehension_app. simpl. rewrite Hx. simpl.
  destruct (Py.comprehension f before); eexists; reflexivity.
Qed.

(** The first raising item decides the exception. *)
Lemma comprehension_first_raise {A B : Type} (f : A -> Py.result B)
    (before after : list A) (x : A) (e : Py.exn) :
  (forall y, In y before -> exists b, f y = Py.Ok b) ->
  f x = Py.Raise e ->
  Py.comprehension f (before ++ x :: after) = Py.Raise e.
Proof.
  intros Hbefore Hx. induction before as [|y before IH]; simpl.
  - rewrite Hx. reflexivity.
  - destruct (Hbefore y (or_introl eq_refl)) as [b ->]. simpl.
    rewrite IH by (intros z Hz; apply Hbefore; right; exact Hz). reflexivity.
Qed.

End RuleParsing.

(** X6.  [register_rule] with a source that does not parse returns False
    and leaves the engine as it was; with one that parses it returns True,
    the rule is the one stored under the id, and every other id evaluates
    as before.  A rule id that was never registered evaluates to NONE. *)
Theorem register_rule_outcome (float_of_str : string -> option Q)
    (rule_id : Z) (src : Py.result Rules.json) (eng : Rules.RuleEngine) :
  let out := Rules.register_rule rule_id src eng in
  (Rules.parse_rule_json src = None -> out = (eng, false)) /\
  (forall rule, Rules.parse_rule_json src = Some rule ->
     out.2 = true /\
     Py.dict_get (Rules.rules out.1) rule_id = Some rule) /\
  (forall other data, other <> rule_id ->
     Rules.evaluate float_of_str out.1 other data
       = Rules.evaluate float_of_str eng other data) /\
  (forall other data, Py.dict_get (Rules.rules eng) other = None ->
     Rules.evaluate float_of_str eng other data = Py.Ok "NONE").
Proof.
  intros out. subst out. unfold Rules.register_rule.
  split; [|split; [|split]].
  - intros ->. reflexivity.
  - intros rule ->. simpl. split; [reflexivity | apply dict_get_set_eq].
  - intros other data Hne. unfold Rules.evaluate.
    destruct (Rules.parse_rule_json src); simpl; [|reflexivity].
    rewrite dict_get_set_ne by congruence. reflexivity.
  - intros other data Hnone. unfold Rules.evaluate. rewrite Hnone. reflexivity.
Qed.


(** X8.  A source is rejected ([parse_rule_json] returns None) when the
    text is not JSON, when the document is not an object, when the action
    or the operator is not a string, and when an item of the conditions
    array lacks one of left, op and right or is not an object. *)
Theorem parse_rejects_malformed :
  (forall e, Rules.parse_rule_json (Py.Raise e) = None) /\
  (forall doc, match doc with
               | Rules.JObj _ => True
               | _ => Rules.parse_rule_json (Py.Ok doc) = None
               end) /\
  (forall fields value,
     Py.dict_get fields "action" = Some value \/
     Py.dict_get fields "operator" = Some value ->
     match value with
     | Rules.JStr _ => True
     | _ => Rules.parse_rule_json (Py.Ok (Rules.JObj fields)) = None
     end) /\
  (forall fields before item after,
     Py.dict_get fields "conditions" = Some (Rules.JArr (before ++ item :: after)) ->
     match item with
     | Rules.JObj keys =>
         Py.dict_get keys "left" = None \/ Py.dict_get keys "op" = None \/
         Py.dict_get keys "right" = None
     | _ => True
     end ->
     Rules.parse_rule_json (Py.Ok (Rules.JObj fields)) = None).
Proof.
  split; [|split; [|split]].
  - reflexivity.
  - intros []; first [exact I | reflexivity].
  - intros fields value Hget.
    destruct value; try exact I;
      unfold Rules.parse_rule_json, Rules.json_get, Rules.Rule_init; cbn [Py.bind];
      (destruct (Rules.json_iter _) as [its|]; [|reflexivity]); cbn [Py.bind];
      (destruct (Py.comprehension _ its) as [cs|]; [|reflexivity]); cbn [Py.bind];
      destruct Hget as [-> | ->]; try reflexivity;
      destruct (Rules.str_upper _); reflexivity.
  - intros fields before item after Hget Hitem.
    unfold Rules.parse_rule_json, Rules.json_get, Rules.Rule_init. cbn [Py.bind].
    rewrite Hget. cbn [Rules.json_iter Py.bind].
    match goal with
    | |- context [Py.comprehension ?f _] =>
        assert (Hraise : exists e, f item = Py.Raise e)
    end.
    { destruct item as [| | | | |keys]; try (eexists; reflexivity).
      unfold Rules.json_subscript.
      destruct Hitem as [H | [H | H]]; rewrite H; cbn [Py.bind].
      - eexists; reflexivity.
      - destruct (Py.dict_get keys "left"); eexists; reflexivity.
      - destruct (Py.dict_get keys "left"); cbn [Py.bind]; [|eexists; reflexivity].
        destruct (Py.dict_get keys "op"); eexists; reflexivity. }
    destruct Hraise as [e He].
    match goal with
    | |- context [Py.comprehension ?f _] =>
        destruct (comprehension_raises f before after item e He) as [e' ->]
    end.
    reflexivity.
Qed.

(** X9.  Letter case does not matter in an operator: a condition written
    with [cross_above] evaluates as with [CROSS_ABOVE], and a rule built
    with the combinator [and] and the action [buy] is the rule built with
    [AND] and [BUY]. *)
Theorem letter_case_is_ignored (float_of_str : string -> option Q) :
  (forall l o r data,
     Rules.RuleCondition_evaluate float_of_str
       (Rules.mkRuleCondition l (Rules.JStr o) r) data =
     Rules.RuleCondition_evaluate float_of_str
       (Rules.mkRuleCondition l (Rules.JStr (Py.upper o)) r) data) /\
  (forall name conditions action operator,
     Rules.Rule_init name conditions (Rules.JStr action) (Rules.JStr operator) =
     Rules.Rule_init name conditions
       (Rules.JStr (Py.upper action)) (Rules.JStr (Py.upper operator))).
Proof.
  split.
  - intros l o r data. unfold Rules.RuleCondition_evaluate. simpl.
    rewrite upper_idempotent. reflexivity.
  - intros name conditions action operator. unfold Rules.Rule_init. simpl.
    rewrite !upper_idempotent. reflexivity.
Qed.

Section RuleEdges.
Import Rules.
Variable float_of_str : string -> option Q.

(** An operand that [float] accepts resolves to that number, whatever the
    snapshot holds. *)
Lemma resolve_literal (x : json) (q : Q) (data : gmap string Q) :
  float float_of_str x = Py.Ok q ->
  _resolve_value float_of_str x data = Py.Ok (Some q).
Proof. intros H. unfold _resolve_value. rewrite H. reflexivity. Qed.

End RuleEdges.


(** X11.  A condition whose two operands are numbers (numeric strings
    included) evaluates the same on every snapshot: a numeric string is
    never looked up, even when the snapshot has a key spelled like it. *)
Theorem literal_condition_ignores_snapshot (float_of_str : string -> option Q)
    (c : Rules.RuleCondition) (ql qr : Q) (data1 data2 : gmap string Q) :
  Rules.float float_of_str (Rules.left c) = Py.Ok ql ->
  Rules.float float_of_str (Rules.right c) = Py.Ok qr ->
  Rules.RuleCondition_evaluate float_of_str c data1 =
  Rules.RuleCondition_evaluate float_of_str c data2.
Proof.
  intros Hl Hr. unfold Rules.RuleCondition_evaluate.
  rewrite (resolve_literal float_of_str _ ql data1 Hl),
          (resolve_literal float_of_str _ ql data2 Hl),
          (resolve_literal float_of_str _ qr data1 Hr),
          (resolve_literal float_of_str _ qr data2 Hr).
  reflexivity.
Qed.

Lemma literal_condition_ignores_snapshot_witness :
  let c := Rules.mkRuleCondition (Rules.JStr "70") (Rules.JStr "<") (Rules.JNum 71) in
  let with_key : gmap string Q := <["70" := 99%Q]> ∅ in
  Rules.RuleCondition_evaluate Fixtures.decimal_float c with_key =
  Rules.RuleCondition_evaluate Fixtures.decimal_float c ∅.
Proof.
  intros c with_key.
  exact (literal_condition_ignores_snapshot Fixtures.decimal_float c 70 71
           with_key ∅ eq_refl eq_refl).
Defined.

(** X12.  For a condition with number-or-string operands, [!=] is the
    negation of [==] exactly when both operands resolve to a number: with
    an indicator missing from the snapshot both are False. *)
Theorem negation_needs_both_operands (float_of_str : string -> option Q)
    (l r : Rules.json) (data : gmap string Q) :
  Rules.is_operand l -> Rules.is_operand r ->
  let eq := Rules.satisfied float_of_str
              (Rules.mkRuleCondition l (Rules.JStr "==") r) data in
  let ne := Rules.satisfied float_of_str
              (Rules.mkRuleCondition l (Rules.JStr "!=") r) data in
  ne = negb eq <->
  exists ql qr,
    Rules._resolve_value float_of_str l data = Py.Ok (Some ql) /\
    Rules._resolve_value float_of_str r data = Py.Ok (Some qr).
Proof.
  intros Hl Hr eq ne. subst eq ne.
  unfold Rules.satisfied, Rules.RuleCondition_evaluate. simpl.
  destruct (resolve_operand float_of_str l data Hl) as [lv ->].
  destruct (resolve_operand float_of_str r data Hr) as [rv ->].
  simpl. destruct lv as [ql|]; [destruct rv as [qr|]|]; simpl.
  - split; [intros _; exists ql, qr; split; reflexivity | reflexivity].
  - split; [discriminate | intros (? & ? & _ & ?); discriminate].
  - split; [discriminate | intros (? & ? & ? & _); discriminate].
Qed.

Lemma negation_needs_both_operands_witness :
  let data := Fixtures.snapshot 100 99 65 in
  Rules.satisfied Fixtures.decimal_float
    (Rules.mkRuleCondition (Rules.JStr "EMA(9)") (Rules.JStr "!=") (Rules.JStr "EMA(21)")) data
  = negb (Rules.satisfied Fixtures.decimal_float
            (Rules.mkRuleCondition (Rules.JStr "EMA(9)") (Rules.JStr "==") (Rules.JStr "EMA(21)"))
            data).
Proof.
  intros data.
  apply (negation_needs_both_operands Fixtures.decimal_float
           (Rules.JStr "EMA(9)") (Rules.JStr "EMA(21)") data I I).
  exists 100%Q, 99%Q. split; reflexivity.
Defined.

(** X13.  [Rule.evaluate] does not short-circuit: it evaluates every
    condition before it combines them, so the first condition that raises
    makes the rule, and [RuleEngine.evaluate] on it, raise that exception,
    whatever the combinator and the conditions before it returned. *)
Theorem rule_evaluate_does_not_short_circuit (float_of_str : string -> option Q)
    (rule : Rules.Rule) (before after : list Rules.RuleCondition)
    (c : Rules.RuleCondition) (e : Py.exn) (data : gmap string Q)
    (eng : Rules.RuleEngine) (rule_id : Z) :
  Rules.conditions rule = before ++ c :: after ->
  (forall c', In c' before ->
     exists b, Rules.RuleCondition_evaluate float_of_str c' data = Py.Ok b) ->
  Rules.RuleCondition_evaluate float_of_str c data = Py.Raise e ->
  Rules.Rule_evaluate float_of_str rule data = Py.Raise e /\
  (Py.dict_get (Rules.rules eng) rule_id = Some rule ->
     Rules.evaluate float_of_str eng rule_id data = Py.Raise e).
Proof.
  intros Hcs Hbefore Hc.
  assert (Hrule : Rules.Rule_evaluate float_of_str rule data = Py.Raise e).
  { unfold Rules.Rule_evaluate. rewrite Hcs.
    rewrite (comprehension_first_raise _ before after c e Hbefore Hc).
    destruct (before ++ c :: after) eqn:Habs; [|reflexivity].
    destruct before; discriminate. }
  split; [exact Hrule|].
  intros Hget. unfold Rules.evaluate. rewrite Hget, Hrule. reflexivity.
Qed.

(** An OR rule whose first condition holds and whose second has a null
    operand. *)
Lemma rule_evaluate_does_not_short_circuit_witness :
  let holds := Rules.mkRuleCondition (Rules.JNum 2) (Rules.JStr ">") (Rules.JNum 1) in
  let broken := Rules.mkRuleCondition Rules.JNull (Rules.JStr ">") (Rules.JNum 1) in
  let rule := Rules.mkRule (Rules.JStr "r") [holds; broken] "BUY" "OR" in
  Rules.satisfied Fixtures.decimal_float holds ∅ = true /\
  Rules.Rule_evaluate Fixtures.decimal_float rule ∅ = Py.Raise Py.TypeError.
Proof.
  intros holds broken rule. split; [reflexivity|].
  refine (proj1 (rule_evaluate_does_not_short_circuit Fixtures.decimal_float rule
                   [holds] [] broken Py.TypeError ∅ Rules.RuleEngine_init 1
                   eq_refl _ eq_refl)).
  intros c' [<-|[]]. exists true. reflexivity.
Defined.

Section EvaluateAll.
Import Rules.
Variable float_of_str : string -> option Q.

Lemma evaluate_all_loop_keys (items : list (Z * Rule)) (data : gmap string Q)
    (acc results : Py.dict Z string) :
  NoDup (Py.keys acc ++ Py.keys items) ->
  evaluate_all_loop float_of_str items data acc = Py.Ok results ->
  Py.keys results = Py.keys acc ++ Py.keys items.
Proof.
  revert acc. induction items as [|[k r] rest IH]; intros acc Hnd Hrun; simpl in *.
  - injection Hrun as <-. rewrite app_nil_r. reflexivity.
  - destruct (Rule_evaluate float_of_str r data) as [b|e]; simpl in Hrun; [|discriminate].
    assert (Hfresh : k ∉ Py.keys acc).
    { apply NoDup_app in Hnd as (_ & Hdisj & _). intros Hin.
      apply (Hdisj k Hin). apply elem_of_cons. left. reflexivity. }
    assert (Hkeys : Py.keys (Py.dict_set k (if b then "BUY" else "NONE") acc)
                    = Py.keys acc ++ [k]).
    { rewrite dict_set_keys. rewrite decide_False by exact Hfresh. reflexivity. }
    assert (Hnd' : NoDup (Py.keys (Py.dict_set k (if b then "BUY" else "NONE") acc)
                          ++ Py.keys rest)).
    { rewrite Hkeys, <- app_assoc. exact Hnd. }
    rewrite (IH _ Hnd' Hrun), Hkeys, <- app_assoc. reflexivity.
Qed.

End EvaluateAll.

(** X14.  When [evaluate_all] returns, its result has an entry for each
    registered rule id and for nothing else, in registration order; and for
    a rule whose action is BUY the entry is what [evaluate] answers for
    that rule id. *)
Theorem evaluate_all_covers_registered (float_of_str : string -> option Q)
    (eng : Rules.RuleEngine) (data : gmap string Q) (results : Py.dict Z string) :
  NoDup (Py.keys (Rules.rules eng)) ->
  Rules.evaluate_all float_of_str eng data = Py.Ok results ->
  Py.keys results = Py.keys (Rules.rules eng) /\
  (forall rule_id rule,
     Py.dict_get (Rules.rules eng) rule_id = Some rule ->
     Rules.action rule = "BUY" ->
     exists answer,
       Py.dict_get results rule_id = Some answer /\
       Rules.evaluate float_of_str eng rule_id data = Py.Ok answer).
Proof.
  intros Hnd Hrun. split.
  - exact (evaluate_all_loop_keys float_of_str (Rules.rules eng) data [] results Hnd Hrun).
  - intros rule_id rule Hget Hbuy.
    destruct (evaluate_all_get float_of_str eng data results rule_id rule Hnd Hrun Hget)
      as (triggered & Heval & Hres).
    exists (if triggered then "BUY" else "NONE"). split; [exact Hres|].
    unfold Rules.evaluate. rewrite Hget, Heval. simpl. rewrite Hbuy.
    destruct triggered; reflexivity.
Qed.

Lemma evaluate_all_covers_registered_witness :
  let eng :=
    (Rules.register_rule 2 (Py.Ok Fixtures.ema_or_rsi)
       (Rules.register_rule 1 (Py.Ok Fixtures.ema_crossover) Rules.RuleEngine_init).1).1 in
  NoDup (Py.keys (Rules.rules eng)) /\
  exists results,
    Rules.evaluate_all Fixtures.decimal_float eng (Fixtures.snapshot 100 99 65)
      = Py.Ok results /\
    Py.keys results = [1; 2]%Z.
Proof.
  intros eng.
  assert (Hnd : NoDup (Py.keys (Rules.rules eng))).
  { apply register_rule_keys_nodup, register_rule_keys_nodup. constructor. }
  split; [exact Hnd|].
  eexists. split; [reflexivity|].
  exact (proj1 (evaluate_all_covers_registered Fixtures.decimal_float eng
                  (Fixtures.snapshot 100 99 65) _ Hnd eq_refl)).
Defined.

Section IndicatorKeys.






End IndicatorKeys.



(* ===================================================================== *)
(** * More about the execution boundary                                   *)
(* ===================================================================== *)

(** X16.  A paper fill of an order with a positive quantity has a positive
    quantity that does not exceed the ordered one; it is flagged partial
    exactly when the roll falls below [partial_fill_chance], and then
    covers between half and nine tenths of the order; otherwise it covers
    the whole order. *)
Theorem paper_fill_quantity_bounds (h : Execution.PaperExecutionHandler)
    (order : Events.OrderEvent) (d : Execution.PaperDraws) :
  (0 < Events.ord_quantity order)%Q ->
  Execution.draws_in_range d ->
  let fill := Execution.paper_execute_order h order d in
  (0 < Events.fill_quantity fill)%Q /\
  (Events.fill_quantity fill <= Events.ord_quantity order)%Q /\
  (Events.fill_is_partial fill = true <->
     (Execution.roll d < Execution.partial_fill_chance h)%Q) /\
  (Events.fill_is_partial fill = true ->
     (Events.ord_quantity order * (5 # 10) <= Events.fill_quantity fill)%Q /\
     (Events.fill_quantity fill <= Events.ord_quantity order * (9 # 10))%Q) /\
  (Events.fill_is_partial fill = false ->
     Events.fill_quantity fill = Events.ord_quantity order).
Proof.
  intros Hq (_ & _ & _ & Hf0 & Hf1) fill. subst fill.
  unfold Execution.paper_execute_order.
  destruct (Py.ltb (Execution.roll d) (Execution.partial_fill_chance h)) eqn:Hroll;
    simpl.
  - apply ltb_lt in Hroll.
    split; [nra|]. split; [nra|]. split; [tauto|]. split; [intros _; split; nra|].
    discriminate.
  - apply ltb_nlt in Hroll.
    split; [exact Hq|]. split; [apply Qle_refl|]. split.
    + split; [discriminate|]. intros Hlt. exfalso. exact (Qlt_not_le _ _ Hlt Hroll).
    + split; [discriminate | reflexivity].
Qed.

Lemma paper_fill_quantity_bounds_witness :
  let order := Fixtures.market_order "BUY" 10 100 None in
  let lucky := Execution.mkPaperDraws (3 # 10) (5 # 100) (7 # 10) in
  let fill := Execution.paper_execute_order Execution.PaperExecutionHandler_init order lucky in
  Execution.draws_in_range lucky /\
  Events.fill_is_partial fill = true /\
  (5 <= Events.fill_quantity fill)%Q /\ (Events.fill_quantity fill <= 9)%Q.
Proof.
  intros order lucky fill.
  assert (Hd : Execution.draws_in_range lucky).
  { unfold Execution.draws_in_range. simpl. repeat split; discriminate. }
  destruct (paper_fill_quantity_bounds Execution.PaperExecutionHandler_init order lucky)
    as (_ & _ & Hflag & Hpart & _); [reflexivity | exact Hd |].
  assert (Hp : Events.fill_is_partial fill = true) by (apply Hflag; reflexivity).
  destruct (Hpart Hp) as [Hlo Hhi].
  split; [exact Hd|]. split; [exact Hp|]. split.
  - eapply Qle_trans; [|exact Hlo]. discriminate.
  - eapply Qle_trans; [exact Hhi|]. discriminate.
Defined.

Section LiveEdges.
Import Events Execution.

Variable World : Type.
Variable post_place : Broker.PlacePayload -> World -> Py.result Broker.PlaceResult * World.
Variable get_order : option string -> World -> Py.result Broker.StatusResult * World.

(** An order without a client id is submitted as the same order with the
    generated id. *)
Lemma live_execute_generated (h : LiveFyersExecutionHandler) (fresh : string)
    (order : OrderEvent) (w : World) :
  Broker.truthy (ord_client_order_id order) = false ->
  live_execute_order World post_place get_order h fresh order w =
  live_execute_order World post_place get_order h fresh
    (set_client_order_id (Some ("order_" ++ fresh)%string) order) w.
Proof.
  intros Hcid. unfold live_execute_order. rewrite Hcid. reflexivity.
Qed.

End LiveEdges.

(** X17.  A live handler whose client has no access token sends nothing:
    whatever the order, the call returns no Fill, the remote end is as it
    was, and the order has no broker id set. *)
Theorem live_unauthenticated_sends_nothing (World : Type)
    (post_place : Broker.PlacePayload -> World -> Py.result Broker.PlaceResult * World)
    (get_order : option string -> World -> Py.result Broker.StatusResult * World)
    (h : Execution.LiveFyersExecutionHandler) (fresh : string)
    (order : Events.OrderEvent) (w : World) :
  Broker.truthy (Broker.access_token (Execution.fyers h)) = false ->
  let out := Execution.live_execute_order World post_place get_order h fresh order w in
  out.1.1 = None /\ out.2 = w /\
  Events.ord_broker_order_id out.1.2 = Events.ord_broker_order_id order.
Proof.
  intros Htok out. subst out.
  unfold Execution.live_execute_order, Broker.place_order. rewrite Htok. simpl.
  destruct (Broker.truthy (Events.ord_client_order_id order)); simpl; repeat split.
Qed.

Lemma live_unauthenticated_sends_nothing_witness :
  let anonymous :=
    Execution.mkLiveFyersExecutionHandler (Broker.mkFyersClient "app" "secret" None) in
  let out :=
    Execution.live_execute_order nat Fixtures.accept_place Fixtures.report_filled
      anonymous "aaaaaaaaaaaa" (Fixtures.market_order "BUY" 10 100 None) 0%nat in
  out.1.1 = None /\ out.2 = 0%nat.
Proof.
  intros anonymous out.
  destruct (live_unauthenticated_sends_nothing nat Fixtures.accept_place
              Fixtures.report_filled anonymous "aaaaaaaaaaaa"
              (Fixtures.market_order "BUY" 10 100 None) 0%nat eq_refl)
    as (Hfill & Hworld & _).
  split; assumption.
Defined.

(** X18.  An order without a client id gets the id [order_] followed by
    the twelve generated characters; the id stays on the order, so a second
    submission of that order sends the same id again and not a new one. *)
Theorem live_generated_id_is_reused (World : Type)
    (post_place : Broker.PlacePayload -> World -> Py.result Broker.PlaceResult * World)
    (get_order : option string -> World -> Py.result Broker.StatusResult * World)
    (h : Execution.LiveFyersExecutionHandler) (fresh1 fresh2 : string)
    (order : Events.OrderEvent) (w : World) :
  Broker.truthy (Events.ord_client_order_id order) = false ->
  Broker.truthy (Broker.access_token (Execution.fyers h)) = true ->
  let first := Execution.live_execute_order World post_place get_order h fresh1 order w in
  let journaled :=
    Execution.execute_twice (World * list Broker.PlacePayload)
      (Broker.recording post_place) (Broker.unrecorded get_order)
      h fresh1 fresh2 order (w, []) in
  Events.ord_client_order_id first.1.2 = Some ("order_" ++ fresh1)%string /\
  map Broker.p_clientId journaled.2.2
    = [Some ("order_" ++ fresh1)%string; Some ("order_" ++ fresh1)%string].
Proof.
  intros Hnone Htok first journaled.
  set (order0 := Execution.set_client_order_id (Some ("order_" ++ fresh1)%string) order).
  assert (Hcid0 : Broker.truthy (Events.ord_client_order_id order0) = true) by reflexivity.
  assert (Hpay0 : Broker.p_clientId (Execution.order_payload order0)
                  = Some ("order_" ++ fresh1)%string) by reflexivity.
  split.
  - subst first. rewrite live_execute_generated by exact Hnone.
    destruct (live_execute_once World post_place get_order h fresh1 order0 w Hcid0 Htok)
      as (_ & _ & Hsame).
    exact Hsame.
  - subst journaled. unfold Execution.execute_twice.
    rewrite live_execute_generated by exact Hnone. fold order0.
    pose proof (live_execute_once _ (Broker.recording post_place)
                  (Broker.unrecorded get_order) h fresh1 order0 (w, []) Hcid0 Htok)
      as (_ & Hpay & Hsame).
    pose proof (live_execute_journal World post_place get_order h fresh1 order0 w []
                  Hcid0 Htok) as Hj1.
    destruct (Execution.live_execute_order _ (Broker.recording post_place)
                (Broker.unrecorded get_order) h fresh1 order0 (w, []))
      as [[fill1 order1] [w1 j1]].
    simpl in Hpay, Hsame, Hj1. subst j1.
    assert (Hcid1 : Broker.truthy (Events.ord_client_order_id order1) = true)
      by (rewrite Hsame; exact Hcid0).
    pose proof (live_execute_journal World post_place get_order h fresh2 order1 w1
                  [Execution.order_payload order0] Hcid1 Htok) as Hj2.
    destruct (Execution.live_execute_order _ (Broker.recording post_place)
                (Broker.unrecorded get_order) h fresh2 order1
                (w1, [Execution.order_payload order0]))
      as [[fill2 order2] [w2 j2]].
    simpl in Hj2 |- *. rewrite Hj2, Hpay. cbn [map]. rewrite Hpay0. reflexivity.
Qed.

Lemma live_generated_id_is_reused_witness :
  let first :=
    Execution.live_execute_order nat Fixtures.accept_place Fixtures.report_filled
      Fixtures.live_handler "0123456789ab" (Fixtures.market_order "BUY" 10 100 None)
      0%nat in
  Events.ord_client_order_id first.1.2 = Some "order_0123456789ab".
Proof.
  intros first.
  exact (proj1 (live_generated_id_is_reused nat Fixtures.accept_place
                  Fixtures.report_filled Fixtures.live_handler
                  "0123456789ab" "ba9876543210"
                  (Fixtures.market_order "BUY" 10 100 None) 0%nat eq_refl eq_refl)).
Defined.

(** X19.  When the broker does not answer the placement with status
    success (a refusal, or an exception of the transport), the live handler
    returns no Fill, does not look the order up (the remote end is as the
    placement left it) and sets no broker id on the order. *)
Theorem live_rejection_stops_there (World : Type)
    (post_place : Broker.PlacePayload -> World -> Py.result Broker.PlaceResult * World)
    (get_order : option string -> World -> Py.result Broker.StatusResult * World)
    (h : Execution.LiveFyersExecutionHandler) (fresh : string)
    (order : Events.OrderEvent) (w : World) :
  Broker.truthy (Events.ord_client_order_id order) = true ->
  Broker.truthy (Broker.access_token (Execution.fyers h)) = true ->
  ~ Broker.acknowledged (post_place (Execution.order_payload order) w).1 ->
  Execution.live_execute_order World post_place get_order h fresh order w
    = (None, order, (post_place (Execution.order_payload order) w).2).
Proof.
  intros Hcid Htok Hnack.
  unfold Execution.live_execute_order, Broker.place_order. rewrite Hcid, Htok. simpl.
  fold (Execution.order_payload order).
  destruct (post_place (Execution.order_payload order) w) as [[r|e] w1]; simpl in *.
  - destruct (bool_decide (Broker.res_status r = Some "success")) eqn:Hack; simpl.
    + apply bool_decide_eq_true in Hack. exfalso. apply Hnack.
      exists r. split; [reflexivity | exact Hack].
    + reflexivity.
  - reflexivity.
Qed.

Lemma live_rejection_stops_there_witness :
  let order := Fixtures.market_order "BUY" 10 100 (Some "order_0123456789ab") in
  Execution.live_execute_order nat Samples.refuse_place Fixtures.report_filled
    Fixtures.live_handler "aaaaaaaaaaaa" order 0%nat
  = (None, order, 1%nat).
Proof.
  intros order.
  refine (live_rejection_stops_there nat Samples.refuse_place Fixtures.report_filled
            Fixtures.live_handler "aaaaaaaaaaaa" order 0%nat eq_refl eq_refl _).
  intros (r & Hr & Hs). injection Hr as <-. discriminate Hs.
Defined.

(** X20.  When the placement is acknowledged but the status lookup fails,
    the live handler still returns a Fill: its quantity is 0, its price the
    order's price, its commission 0, its order id the broker's id.  Handled
    by the orchestrator, that Fill counts as a trade of the strategy. *)
Theorem live_failed_lookup_yields_empty_fill (World : Type)
    (post_place : Broker.PlacePayload -> World -> Py.result Broker.PlaceResult * World)
    (get_order : option string -> World -> Py.result Broker.StatusResult * World)
    (h : Execution.LiveFyersExecutionHandler) (fresh : string)
    (order : Events.OrderEvent) (w w1 : World) (r : Broker.PlaceResult) (e : Py.exn)
    (eng : Core.TradingEngine) (n : Z) :
  Broker.truthy (Events.ord_client_order_id order) = true ->
  Broker.truthy (Broker.access_token (Execution.fyers h)) = true ->
  post_place (Execution.order_payload order) w = (Py.Ok r, w1) ->
  Broker.res_status r = Some "success" ->
  (get_order (Broker.res_id r) w1).1 = Py.Raise e ->
  exists fill,
    (Execution.live_execute_order World post_place get_order h fresh order w).1.1
      = Some fill /\
    Events.fill_quantity fill = 0%Q /\
    Events.fill_price fill = Events.ord_price order /\
    (Events.fill_commission fill == 0)%Q /\
    Events.fill_order_id fill = Broker.res_id r /\
    (Risk.trade_count (Core.risk_engine eng) !! Events.ord_strategy_id order = Some n ->
     Risk.trade_count (Core.risk_engine (Core._on_fill_event fill eng))
       !! Events.ord_strategy_id order = Some (n + 1)%Z).
Proof.
  intros Hcid Htok Hpost Hack Hget.
  unfold Execution.live_execute_order, Broker.place_order, Broker.get_order_status.
  rewrite Hcid, Htok. simpl. fold (Execution.order_payload order).
  rewrite Hpost. simpl. rewrite (bool_decide_eq_true_2 _ Hack). simpl.
  destruct (get_order (Broker.res_id r) w1) as [[st|e'] w2]; simpl in Hget; [discriminate|].
  simpl. eexists. split; [reflexivity|]. simpl.
  split; [reflexivity|]. split; [reflexivity|]. split; [ring|]. split; [reflexivity|].
  intros Hn. unfold Risk.record_trade. rewrite Hn. simpl. apply lookup_insert_eq.
Qed.

Lemma live_failed_lookup_yields_empty_fill_witness :
  let order := Fixtures.market_order "BUY" 10 100 (Some "order_0123456789ab") in
  exists fill,
    (Execution.live_execute_order nat Fixtures.accept_place Samples.status_down
       Fixtures.live_handler "aaaaaaaaaaaa" order 0%nat).1.1 = Some fill /\
    Events.fill_quantity fill = 0%Q.
Proof.
  intros order.
  destruct (live_failed_lookup_yields_empty_fill nat Fixtures.accept_place
              Samples.status_down Fixtures.live_handler "aaaaaaaaaaaa" order
              0%nat 1%nat (Broker.mkPlaceResult (Some "success") (Some "B1"))
              Py.ValueError Core.init 0 eq_refl eq_refl eq_refl eq_refl eq_refl)
    as (fill & Hfill & Hqty & _).
  exists fill. split; assumption.
Defined.

(* ===================================================================== *)
(** * The event bus                                                       *)
(* ===================================================================== *)

Section BusFacts.
Import Bus.
Local Open Scope nat_scope.
Variable S : Type.

Lemma deque_append_length {A : Type} (m : nat) (q : list A) (x : A) :
  length (deque_append m q x) <= m.
Proof.
  unfold deque_append. rewrite length_drop, length_app. simpl. lia.
Qed.

(** Below capacity the item is added; at capacity the oldest item goes. *)
Lemma deque_append_cases {A : Type} (m : nat) (q : list A) (x : A) :
  length q <= m ->
  deque_append m q x = if decide (length q < m) then q ++ [x] else drop 1 (q ++ [x]).
Proof.
  intros Hlen. unfold deque_append. rewrite length_app. simpl.
  destruct (decide (length q < m)) as [Hlt|Hge].
  - replace (length q + 1 - m) with 0 by lia. reflexivity.
  - replace (length q + 1 - m) with 1 by lia. reflexivity.
Qed.

Lemma put_queue (event : Event) (self : EventQueue S) (s : S) :
  queue S (put S event self s).1 = deque_append (maxlen S self) (queue S self) event /\
  maxlen S (put S event self s).1 = maxlen S self /\
  subscribers S (put S event self s).1 = subscribers S self.
Proof.
  unfold put. destruct (Py.dict_get _ _); repeat split.
Qed.

Lemma put_all_queue (events : list Event) (self : EventQueue S) (s : S) :
  length (queue S self) <= maxlen S self ->
  queue S (put_all S events self s).1 =
    drop (length (queue S self ++ events) - maxlen S self) (queue S self ++ events) /\
  maxlen S (put_all S events self s).1 = maxlen S self.
Proof.
  revert self s. induction events as [|e events IH]; intros self s Hlen.
  - simpl. rewrite app_nil_r. replace (_ - _) with 0 by lia. split; reflexivity.
  - cbn [put_all].
    destruct (put S e self s) as [self' s'] eqn:Hput.
    pose proof (put_queue e self s) as (Hq & Hm & _). rewrite Hput in Hq, Hm.
    simpl in Hq, Hm.
    assert (Hlen' : length (queue S self') <= maxlen S self').
    { rewrite Hq, Hm. apply deque_append_length. }
    destruct (IH self' s' Hlen') as [IHq IHm].
    split; [|rewrite IHm; exact Hm].
    rewrite IHq, Hm, Hq, (deque_append_cases _ _ _ Hlen).
    destruct (decide (length (queue S self) < maxlen S self)) as [Hlt|Hge].
    + rewrite <- app_assoc. reflexivity.
    + assert (Hfull : length (queue S self) = maxlen S self) by lia.
      rewrite !length_app, length_drop, !length_app. simpl.
      match goal with
      | |- drop ?a _ = drop ?b _ =>
          replace a with (length events) by lia;
          replace b with (1 + length events) by lia
      end.
      rewrite <- (drop_drop _ (length events) 1).
      f_equal. change (e :: events) with ([e] ++ events).
      rewrite app_assoc. symmetry. apply drop_app_le.
      rewrite length_app. simpl. lia.
Qed.

Lemma get_many_queue (n : nat) (self : EventQueue S) :
  (get_many S n self).1 = take n (queue S self) /\
  queue S (get_many S n self).2 = drop n (queue S self).
Proof.
  revert self. induction n as [|n IH]; intros self; [split; reflexivity|].
  cbn [get_many]. unfold get.
  destruct (queue S self) as [|e rest] eqn:Hq.
  - destruct (IH self) as [IH1 IH2]. rewrite Hq in IH1, IH2.
    rewrite IH1, IH2. rewrite take_nil, drop_nil. split; reflexivity.
  - destruct (IH (mkEventQueue S rest (maxlen S self) (subscribers S self)))
      as [IH1 IH2].
    destruct (get_many S n _) as [events self'']. simpl in *.
    rewrite IH1, IH2. split; reflexivity.
Qed.

Lemma notify_app (callbacks1 callbacks2 : list (Callback S)) (event : Event) (s : S) :
  notify S (callbacks1 ++ callbacks2) event s =
  notify S callbacks2 event (notify S callbacks1 event s).
Proof.
  revert s. induction callbacks1 as [|cb cbs IH]; intros s; simpl; [reflexivity|].
  destruct (cb event s) as [[u|e] s']; apply IH.
Qed.

End BusFacts.

(** X21.  However it is used, the queue never holds more events than the
    [max_size] it was created with. *)
Theorem queue_never_exceeds_capacity (S : Type) (max_size : nat)
    (self : Bus.EventQueue S) :
  Bus.reachable S max_size self ->
  (Bus.size S self <= max_size)%nat /\ Bus.maxlen S self = max_size.
Proof.
  unfold Bus.size. induction 1 as [|event self s _ [IHq IHm]|self _ [IHq IHm]
                                  |ty cb self _ IH|self _ [IHq IHm]].
  - simpl. split; [lia | reflexivity].
  - destruct (put_queue S event self s) as (Hq & Hm & _).
    rewrite Hq, Hm, IHm. split; [apply deque_append_length | reflexivity].
  - unfold Bus.get. destruct (Bus.queue S self) as [|e rest] eqn:Hq; simpl in *.
    + rewrite Hq. split; [simpl; lia | exact IHm].
    + split; [lia | exact IHm].
  - exact IH.
  - simpl. split; [lia | exact IHm].
Qed.

Lemma queue_never_exceeds_capacity_witness :
  let one := (Bus.put nat (Samples.tick 100) (Bus.init nat 2) 0%nat).1 in
  let two := (Bus.put nat (Samples.tick 101) one 0%nat).1 in
  let full := (Bus.put nat (Samples.tick 102) two 0%nat).1 in
  Bus.reachable nat 2 full /\ (Bus.size nat full <= 2)%nat.
Proof.
  intros one two full.
  assert (Hr : Bus.reachable nat 2 full).
  { apply Bus.reach_put, Bus.reach_put, Bus.reach_put, Bus.reach_init. }
  split; [exact Hr|].
  exact (proj1 (queue_never_exceeds_capacity nat 2 full Hr)).
Defined.

(** X22.  The queue is a ring buffer read first in, first out: after a run
    of [put] calls on an emptied queue it holds the newest [max_size] of the
    events, oldest first, and [n] calls of [get] return the first [n] of
    them in that order and leave the rest. *)
Theorem queue_keeps_newest_in_order (S : Type) (events : list Bus.Event)
    (self : Bus.EventQueue S) (s : S) (n : nat) :
  let filled := (Bus.put_all S events (Bus.clear S self) s).1 in
  let kept := drop (length events - Bus.maxlen S self)%nat events in
  Bus.queue S filled = kept /\
  (Bus.get_many S n filled).1 = take n kept /\
  Bus.queue S (Bus.get_many S n filled).2 = drop n kept.
Proof.
  intros filled kept.
  destruct (put_all_queue S events (Bus.clear S self) s) as [Hq _]; [simpl; lia|].
  simpl in Hq. fold filled kept in Hq.
  destruct (get_many_queue S n filled) as [Htake Hdrop].
  rewrite Htake, Hdrop, Hq. repeat split.
Qed.

(** X23.  The callbacks of an event's type run in subscription order, each
    on the state the one before it left, whether or not that one raised: a
    callback subscribed last for the type of an event runs on what [put]
    did without it.  A callback subscribed for another type does not run,
    and a subscription does not touch the queued events. *)
Theorem last_subscriber_runs_last (S : Type) (event : Bus.Event)
    (event_type : Bus.EventType) (callback : Bus.Callback S)
    (self : Bus.EventQueue S) (s : S) :
  let subscribed := Bus.subscribe S event_type callback self in
  Bus.queue S (Bus.put S event subscribed s).1 = Bus.queue S (Bus.put S event self s).1 /\
  (event_type = Bus.event_type event ->
     (Bus.put S event subscribed s).2 = (callback event (Bus.put S event self s).2).2) /\
  (event_type <> Bus.event_type event ->
     (Bus.put S event subscribed s).2 = (Bus.put S event self s).2).
Proof.
  intros subscribed. subst subscribed. split; [|split].
  - destruct (put_queue S event (Bus.subscribe S event_type callback self) s) as (-> & _).
    destruct (put_queue S event self s) as (-> & _). reflexivity.
  - intros ->. unfold Bus.put, Bus.subscribe. simpl.
    rewrite dict_get_set_eq.
    destruct (Py.dict_get (Bus.subscribers S self) (Bus.event_type event)) as [cbs|];
      simpl.
    + rewrite notify_app. simpl. destruct (callback event _) as [[u|e] s']; reflexivity.
    + destruct (callback event s) as [[u|e] s']; reflexivity.
  - intros Hne. unfold Bus.put, Bus.subscribe. simpl.
    rewrite dict_get_set_ne by exact Hne.
    destruct (Py.dict_get (Bus.subscribers S self) (Bus.event_type event)); reflexivity.
Qed.

(** A handler that raises, subscribed before one that counts. *)
Example raising_handler_does_not_stop_the_next :
  let bus :=
    Bus.subscribe nat Bus.MARKET Samples.counting
      (Bus.subscribe nat Bus.MARKET Samples.failing (Bus.init nat 10)) in
  Bus.put nat (Samples.tick 100) bus 0%nat
  = (Bus.mkEventQueue nat [Samples.tick 100] 10
       [(Bus.MARKET, [Samples.failing; Samples.counting])], 1%nat).
Proof. reflexivity. Qed.

(* ===================================================================== *)
(** * The orchestrator's handlers                                         *)
(* ===================================================================== *)

(** X24.  With the subscriptions of [_subscribe_to_events] on a new bus, a
    published Fill is applied to the ledger and the risk counters, while a
    published Order (and a published RiskBlock) runs no handler at all:
    [_on_order_event] is not subscribed. *)
Theorem bus_wiring (on_market on_signal : Bus.Callback Core.TradingEngine)
    (max_size : nat) (eng : Core.TradingEngine) :
  let bus :=
    Orchestrator._subscribe_to_events on_market on_signal
      (Bus.init Core.TradingEngine max_size) in
  (forall fill,
     (Bus.put Core.TradingEngine (Bus.EvFill fill) bus eng).2
       = Core._on_fill_event fill eng) /\
  (forall order, (Bus.put Core.TradingEngine (Bus.EvOrder order) bus eng).2 = eng) /\
  (forall block, (Bus.put Core.TradingEngine (Bus.EvRiskBlock block) bus eng).2 = eng).
Proof. intros bus. repeat split. Qed.

Section SignalHandling.
Import Events Risk.

Variable default_price : Q.
Variable default_client_order_id default_broker_order_id : option string.

(** The handler publishes an order exactly on an allowed signal. *)
Lemma on_signal_cases (st : RiskEngine) (signal : SignalEvent) :
  Orchestrator._on_signal_event default_price default_client_order_id
    default_broker_order_id st signal =
  match validate_signal st signal with
  | Py.Ok None =>
      Py.Ok (Bus.EvOrder
               (mkOrderEvent (sig_user_id signal) (sig_strategy_id signal)
                  (sig_symbol signal) "MARKET" (sig_signal signal) 10
                  default_price default_client_order_id
                  default_broker_order_id "CREATED"))
  | Py.Ok (Some block) => Py.Ok (Bus.EvRiskBlock block)
  | Py.Raise e => Py.Raise e
  end.
Proof.
  unfold Orchestrator._on_signal_event.
  destruct (validate_signal st signal) as [[block|]|e]; reflexivity.
Qed.

End SignalHandling.

(** X25.  No order without a passed risk check: in a reachable risk state
    [_on_signal_event] publishes an order exactly when the signal's
    strategy is registered with its daily loss below [max_daily_loss] and
    its trade count below [max_trades_per_day], and otherwise publishes a
    risk block; the order is a MARKET order for 10 units on the signal's
    side and symbol, in status CREATED. *)
Theorem orders_only_after_risk_pass (default_price : Q)
    (default_client_order_id default_broker_order_id : option string)
    (st : Risk.RiskEngine) (signal : Events.SignalEvent) :
  Risk.reachable st ->
  let sid := Events.sig_strategy_id signal in
  let published :=
    Orchestrator._on_signal_event default_price default_client_order_id
      default_broker_order_id st signal in
  ((exists order, published = Py.Ok (Bus.EvOrder order)) <->
   (exists cfg loss count,
      Risk.configs st !! sid = Some cfg /\
      Risk.daily_loss st !! sid = Some loss /\
      Risk.trade_count st !! sid = Some count /\
      (loss < Risk.max_daily_loss cfg)%Q /\
      (count < Risk.max_trades_per_day cfg)%Z)) /\
  ((exists order, published = Py.Ok (Bus.EvOrder order)) \/
   (exists block, published = Py.Ok (Bus.EvRiskBlock block))) /\
  (forall order, published = Py.Ok (Bus.EvOrder order) ->
     Events.ord_order_type order = "MARKET" /\
     Events.ord_side order = Events.sig_signal signal /\
     Events.ord_quantity order = 10%Q /\
     Events.ord_symbol order = Events.sig_symbol signal /\
     Events.ord_strategy_id order = sid /\
     Events.ord_status order = "CREATED").
Proof.
  intros Hreach sid published. subst published.
  rewrite on_signal_cases.
  pose proof (reachable_same_keys st Hreach) as Hk.
  destruct (Risk.configs st !! sid) as [cfg|] eqn:Hc.
  - destruct (registered_has_counters st sid cfg Hk Hc) as (loss & count & Hl & Hn).
    rewrite (validate_signal_at st signal cfg loss count Hc Hl Hn).
    destruct (Py.leb (Risk.max_daily_loss cfg) loss) eqn:Eloss.
    + apply leb_le in Eloss. split; [|split].
      * split; [intros [o Ho]; discriminate|].
        intros (cfg' & loss' & count' & Hc' & Hl' & _ & Hlt & _).
        assert (cfg' = cfg) as -> by congruence.
        assert (loss' = loss) as -> by congruence.
        exfalso. exact (Qlt_not_le _ _ Hlt Eloss).
      * right. eexists. reflexivity.
      * intros o Ho. discriminate.
    + apply leb_nle in Eloss.
      destruct (Risk.max_trades_per_day cfg <=? count)%Z eqn:Ecount.
      * apply Z.leb_le in Ecount. split; [|split].
        -- split; [intros [o Ho]; discriminate|].
           intros (cfg' & loss' & count' & Hc' & _ & Hn' & _ & Hlt).
           assert (cfg' = cfg) as -> by congruence.
           assert (count' = count) as -> by congruence. lia.
        -- right. eexists. reflexivity.
        -- intros o Ho. discriminate.
      * apply Z.leb_gt in Ecount. split; [|split].
        -- split; [|intros _; eexists; reflexivity].
           intros _. exists cfg, loss, count. repeat split; try assumption.
           apply Qnot_le_lt. exact Eloss.
        -- left. eexists. reflexivity.
        -- intros o Ho. injection Ho as <-. repeat split.
  - unfold Risk.validate_signal. fold sid. rewrite Hc. split; [|split].
    + split; [intros [o Ho]; discriminate|].
      intros (cfg' & _ & _ & Hc' & _). discriminate.
    + right. eexists. reflexivity.
    + intros o Ho. discriminate.
Qed.

Lemma orders_only_after_risk_pass_witness :
  Risk.reachable Fixtures.risk_one /\
  exists order,
    Orchestrator._on_signal_event 0 None None Fixtures.risk_one (Fixtures.signal_for 1)
      = Py.Ok (Bus.EvOrder order) /\
    Events.ord_side order = "BUY".
Proof.
  assert (Hr : Risk.reachable Fixtures.risk_one)
    by (apply Risk.reach_register, Risk.reach_init).
  split; [exact Hr|].
  destruct (orders_only_after_risk_pass 0 None None Fixtures.risk_one
              (Fixtures.signal_for 1) Hr) as (Hiff & _ & Hfields).
  destruct (proj2 Hiff) as [order Horder].
  - exists Risk.RiskConfig_default, 0%Q, 0%Z. repeat split.
  - exists order. split; [exact Horder|].
    exact (proj1 (proj2 (Hfields order Horder))).
Defined.

Section MarketHandling.
Import Events.
Variable float_of_str : string -> option Q.

Lemma dict_set_values {K : Type} `{EqDecision K} (P : string -> Prop)
    (d : Py.dict K string) (k : K) (v : string) :
  P v -> Forall (fun kv => P kv.2) d -> Forall (fun kv => P kv.2) (Py.dict_set k v d).
Proof.
  intros Hv. induction 1 as [|[k' v'] d Hkv Hd IH]; simpl.
  - constructor; [exact Hv | constructor].
  - destruct (decide (k = k')); constructor; assumption.
Qed.

Lemma dict_set_length {K V : Type} `{EqDecision K} (d : Py.dict K V) (k : K) (v : V) :
  (length (Py.dict_set k v d) <= Datatypes.S (length d))%nat.
Proof.
  induction d as [|[k' v'] d IH]; simpl; [lia|].
  destruct (decide (k = k')); simpl; lia.
Qed.

(** The entries [evaluate_all] writes are BUY or NONE, one per rule at
    most. *)
Lemma evaluate_all_loop_values (items : list (Z * Rules.Rule)) (data : gmap string Q)
    (acc results : Py.dict Z string) :
  Forall (fun kv => kv.2 = "BUY" \/ kv.2 = "NONE") acc ->
  Rules.evaluate_all_loop float_of_str items data acc = Py.Ok results ->
  Forall (fun kv => kv.2 = "BUY" \/ kv.2 = "NONE") results /\
  (length results <= length acc + length items)%nat.
Proof.
  revert acc. induction items as [|[k r] rest IH]; intros acc Hacc Hrun; simpl in *.
  - injection Hrun as <-. split; [exact Hacc | lia].
  - destruct (Rules.Rule_evaluate float_of_str r data) as [b|e]; simpl in Hrun;
      [|discriminate].
    destruct (IH _ (dict_set_values (fun v => v = "BUY" \/ v = "NONE") acc k
                      (if b then "BUY" else "NONE")
                      (ltac:(destruct b; tauto)) Hacc) Hrun) as [Hvals Hlen].
    split; [exact Hvals|].
    pose proof (dict_set_length acc k (if b then "BUY" else "NONE")). lia.
Qed.

Lemma signals_of_buy (event : Bus.MarketEvent) (results : list (Z * string)) :
  Forall (fun kv => kv.2 = "BUY" \/ kv.2 = "NONE") results ->
  Forall (fun s => sig_signal s = "BUY" /\
                   sig_symbol s = Bus.mkt_symbol event /\
                   sig_user_id s = Bus.mkt_user_id event /\
                   sig_strategy_id s = Bus.mkt_strategy_id event /\
                   sig_strength s = (8 # 10)%Q)
    (Orchestrator.signals_of event results) /\
  (length (Orchestrator.signals_of event results) <= length results)%nat.
Proof.
  induction 1 as [|[k v] results Hv Hrest [IH1 IH2]]; simpl.
  - split; [constructor | lia].
  - destruct Hv as [Hv|Hv]; simpl in Hv; subst v; simpl.
    + split; [constructor; [repeat split | exact IH1] | lia].
    + split; [exact IH1 | lia].
Qed.


End MarketHandling.

(** X26.  Every signal [_on_market_event] publishes is a BUY signal that
    carries the market event's user, strategy and symbol with strength 0.8,
    and there is at most one per registered rule: a rule registered with
    the action SELL is published as BUY. *)
Theorem market_signals_are_buy_only (float_of_str : string -> option Q)
    (eng : Rules.RuleEngine) (event : Bus.MarketEvent)
    (signals : list Events.SignalEvent) :
  Orchestrator._on_market_event float_of_str eng event = Py.Ok signals ->
  Forall (fun s => Events.sig_signal s = "BUY" /\
                   Events.sig_symbol s = Bus.mkt_symbol event /\
                   Events.sig_user_id s = Bus.mkt_user_id event /\
                   Events.sig_strategy_id s = Bus.mkt_strategy_id event /\
                   Events.sig_strength s = (8 # 10)%Q)
    signals /\
  (length signals <= length (Rules.rules eng))%nat.
Proof.
  unfold Orchestrator._on_market_event, Rules.evaluate_all. intros Hrun.
  destruct (Rules.evaluate_all_loop float_of_str (Rules.rules eng)
              (Orchestrator.market_data event) []) as [results|e] eqn:Hloop;
    simpl in Hrun; [|discriminate].
  injection Hrun as <-.
  destruct (evaluate_all_loop_values float_of_str _ _ [] results (Forall_nil_2 _) Hloop)
    as [Hvals Hlen].
  destruct (signals_of_buy event results Hvals) as [Hbuy Hcount].
  split; [exact Hbuy|]. simpl in Hlen. lia.
Qed.

(** A SELL rule on the price, triggered by a tick. *)
Lemma market_signals_are_buy_only_witness :
  let sell_above :=
    Fixtures.rule_json "Take profit"
      [Fixtures.condition_json (Rules.JStr "price") ">" (Rules.JNum 100)] "AND" "SELL" in
  let eng := (Rules.register_rule 1 (Py.Ok sell_above) Rules.RuleEngine_init).1 in
  let event := Orchestrator.inject_market_data "NSE:SBIN-EQ" 101 1000 1 1 in
  exists signal,
    Orchestrator._on_market_event Fixtures.decimal_float eng event = Py.Ok [signal] /\
    Events.sig_signal signal = "BUY".
Proof.
  intros sell_above eng event.
  eexists. split; [reflexivity|].
  pose proof (market_signals_are_buy_only Fixtures.decimal_float eng event _ eq_refl)
    as [Hall _].
  apply Forall_cons in Hall as [(Hbuy & _) _]. exact Hbuy.
Defined.



(* ===================================================================== *)
(** * The strategy endpoints and the kill switch again                    *)
(* ===================================================================== *)

Section StrategyFacts.
Import Strategies.



End StrategyFacts.


Example toggle_strategy_on_sample :
  (exists db1, Strategies.toggle_strategy 1 7 Samples.strategies
                 = Strategies.Respond (db1, true)) /\
  Strategies.toggle_strategy 1 8 Samples.strategies
    = Strategies.HTTPException 404 "Strategy not found".
Proof. split; [eexists|]; reflexivity. Qed.

(** X29.  [create_strategy] stores a strategy exactly when its rule source
    parses, and answers 400 otherwise; the stored strategy belongs to the
    caller, is inactive and trades on paper whatever was asked, and it can
    be read back by its owner and by no other user. *)
Theorem create_strategy_validates_rule
    (json_loads : string -> Py.result Rules.json)
    (strategy_data : Strategies.StrategyCreate) (uid new_id : Z)
    (db : Strategies.Table) :
  let created := Strategies.create_strategy json_loads strategy_data uid new_id db in
  (Rules.parse_rule_json (json_loads (Strategies.new_rule_json strategy_data)) = None ->
     created = Strategies.HTTPException 400 "Invalid rule JSON") /\
  (forall rule,
     Rules.parse_rule_json (json_loads (Strategies.new_rule_json strategy_data))
       = Some rule ->
     exists db1 row,
       created = Strategies.Respond (db1, row) /\
       Strategies.user_id row = uid /\
       Strategies.is_active row = false /\
       Strategies.paper_trading row = true /\
       Strategies.rule_json row = Strategies.new_rule_json strategy_data /\
       Strategies.get_strategy new_id uid db1 = Strategies.Respond row /\
       (forall other, other <> uid ->
          Strategies.get_strategy new_id other db1
            = Strategies.HTTPException 404 "Strategy not found")).
Proof.
  intros created. subst created.
  unfold Strategies.create_strategy, Rules.register_rule. split.
  - intros ->. reflexivity.
  - intros rule ->. simpl.
    eexists. eexists. split; [reflexivity|].
    repeat split.
    + unfold Strategies.get_strategy, Strategies.query_owned.
      rewrite lookup_insert_eq. simpl.
      rewrite bool_decide_eq_true_2 by reflexivity. reflexivity.
    + intros other Hne. unfold Strategies.get_strategy, Strategies.query_owned.
      rewrite lookup_insert_eq. simpl.
      rewrite bool_decide_eq_false_2 by congruence. reflexivity.
Qed.

(** X30.  The kill switch is idempotent: activated again for the same
    user right after, it cancels nothing and leaves the table as the first
    activation left it. *)
Theorem kill_switch_idempotent (uid : Z) (db : Api.Table) :
  Api.activate_kill_switch uid (Api.activate_kill_switch uid db).1
    = ((Api.activate_kill_switch uid db).1, 0%nat).
Proof.
  set (db' := (Api.activate_kill_switch uid db).1).
  assert (Hnone : Api.query_active uid db' = []).
  { apply elem_of_nil_inv. intros k Hin.
    apply elem_of_query_active in Hin as (o' & Hlook & Huser & Hact).
    subst db'. unfold Api.activate_kill_switch in Hlook.
    rewrite cancel_loop_lookup in Hlook.
    destruct (decide (k ∈ Api.query_active uid db)) as [Hk|Hk].
    - destruct (db !! k) as [o|]; [|discriminate].
      injection Hlook as <-. simpl in Hact.
      apply list_elem_of_In in Hact. simpl in Hact. intuition discriminate.
    - apply Hk. apply elem_of_query_active. exists o'. repeat split; assumption. }
  unfold Api.activate_kill_switch at 1. rewrite Hnone. reflexivity.
Qed.
